(** * A shallow embedding of [app.py]

    The program is a single Streamlit page: it uploads PDF files to an S3
    bucket and forwards questions to a question-answering backend over HTTP.
    Every function of the script is a few lines of glue around one call
    into a library ([requests], [boto3], [uuid], [streamlit]).

    The embedding keeps that shape.  Python values are a small inductive
    type with dictionaries as finite maps, text is a list of Unicode code
    points, exceptions are an inductive type that follows the class
    hierarchy the [except] clauses test, and a library call is a node of a
    program tree that an interpreter runs against a world answering the
    calls and recording them in a trace. *)

From Stdlib Require Import ZArith NArith PrimFloat Ascii String DecimalString.
From stdpp Require Import gmap list strings.

Set Warnings "-register-all".
Set Default Proof Using "Type".

(** ** Text

    A Python [str] is a sequence of code points.  String literals of the
    script are written as Rocq strings (UTF-8 bytes) and decoded. *)

Abbreviation char := N (only parsing).
Abbreviation str := (list N) (only parsing).

Fixpoint decode_utf8 (bs : list N) : str :=
  match bs with
  | [] => []
  | b0 :: r0 =>
    if (b0 <? 128)%N then b0 :: decode_utf8 r0
    else if (b0 <? 224)%N then
      match r0 with
      | b1 :: r1 => ((b0 - 192) * 64 + (b1 - 128))%N :: decode_utf8 r1
      | _ => []
      end
    else if (b0 <? 240)%N then
      match r0 with
      | b1 :: b2 :: r2 =>
        ((b0 - 224) * 4096 + (b1 - 128) * 64 + (b2 - 128))%N :: decode_utf8 r2
      | _ => []
      end
    else
      match r0 with
      | b1 :: b2 :: b3 :: r3 =>
        ((b0 - 240) * 262144 + (b1 - 128) * 4096 + (b2 - 128) * 64 + (b3 - 128))%N
          :: decode_utf8 r3
      | _ => []
      end
  end.

Definition py (s : string) : str :=
  decode_utf8 (N_of_ascii <$> list_ascii_of_string s).

(** [str(n)] for an integer. *)
Definition str_of_Z (z : Z) : str :=
  py (NilZero.string_of_int (Z.to_int z)).

(** [str.isspace] on one character: the code points Python's
    [_PyUnicode_IsWhitespace] accepts. *)
Definition isspace (c : char) : bool :=
  ((9 <=? c) && (c <=? 13) || (28 <=? c) && (c <=? 32)
   || (c =? 133) || (c =? 160) || (c =? 5760)
   || (8192 <=? c) && (c <=? 8202)
   || (c =? 8232) || (c =? 8233) || (c =? 8239) || (c =? 8287)
   || (c =? 12288))%N.

Fixpoint lstrip (s : str) : str :=
  match s with
  | c :: s' => if isspace c then lstrip s' else s
  | [] => []
  end.

Definition rstrip (s : str) : str := reverse (lstrip (reverse s)).

(** [s.strip()] *)
Definition strip (s : str) : str := rstrip (lstrip s).

(** [sep in s] for a one-character [sep]. *)
Definition contains_char (sep : char) (s : str) : bool :=
  bool_decide (sep ∈ s).

(** [s.split(sep)] for a one-character [sep]: the pieces between the
    occurrences of [sep], never an empty list. *)
Fixpoint split (sep : char) (s : str) : list str :=
  match s with
  | [] => [[]]
  | c :: s' =>
    if bool_decide (c = sep) then [] :: split sep s'
    else match split sep s' with
         | piece :: pieces => (c :: piece) :: pieces
         | [] => [[c]]
         end
  end.

(** [l[-1]]; the lists it is used on are never empty. *)
Definition last_item (l : list str) : str := default [] (last l).

Definition dot : char := 46%N.

(** ** Values

    What [json.loads], [resp.json()] and the script's own literals build:
    [None], booleans, integers, floats, text, lists and dictionaries with
    text keys.  A dictionary is a finite map; the order of its keys, which
    only shows when one is printed, is not kept. *)

Inductive value : Type :=
| VNone
| VBool (b : bool)
| VInt (z : Z)
| VFloat (f : float)
| VStr (s : str)
| VList (l : list value)
| VDict (d : gmap str value).

(** [bool(v)]: what [if v:], [not v] and [or] test. *)
Definition truthy (v : value) : bool :=
  match v with
  | VNone => false
  | VBool b => b
  | VInt z => negb (z =? 0)%Z
  | VFloat f => negb (PrimFloat.eqb f 0%float)
  | VStr s => match s with [] => false | _ => true end
  | VList l => match l with [] => false | _ => true end
  | VDict d => negb (bool_decide (size d = 0))
  end.

(** [x or None] on an optional text, as in [namespace or None]. *)
Definition or_none (x : str) : option str :=
  match x with [] => None | _ => Some x end.

(** ** HTTP responses and exceptions *)

(** A [requests.Response].  [json_] is what [resp.json()] does: it yields
    the decoded body, or it raises: a [ValueError] when the body is not
    valid JSON, another exception when decoding fails otherwise (a
    [RecursionError] on a body nested too deep).  [E] stands for the
    exceptions, which come next: an [HTTPError] carries a response. *)
Record ResponseOf (E : Type) : Type := {
  status_code : Z;
  reason : str;
  url : str;
  text : str;
  json_ : value + E;
}.
Arguments status_code {E} _.
Arguments reason {E} _.
Arguments url {E} _.
Arguments text {E} _.
Arguments json_ {E} _.

(** The exceptions the script's [except] clauses tell apart.  Each carries
    the text [str(e)] gives.  Everything here derives from [Exception]. *)
Inductive exception : Type :=
| NoCredentialsError (msg : str)
| EndpointConnectionError (msg : str)
(** [botocore.exceptions.ClientError]; [err] is what [e.response] holds
    under the key [Error], a dictionary when it is there. *)
| ClientError (err : option (gmap str value)) (msg : str)
(** [requests.HTTPError], with the response it was raised for, if any. *)
| HTTPError (response : option (ResponseOf exception)) (msg : str)
(** any other [requests.RequestException]: no connection, a timeout, ... *)
| RequestException (msg : str)
| ValueError (msg : str)
| AttributeError (msg : str)
| KeyError (msg : str)
(** any other [Exception]: a [RecursionError], a [TypeError], ... *)
| OtherException (msg : str).

Abbreviation Response := (ResponseOf exception) (only parsing).

Definition str_of_exception (e : exception) : str :=
  match e with
  | NoCredentialsError m | EndpointConnectionError m | ClientError _ m
  | HTTPError _ m | RequestException m | ValueError m | AttributeError m
  | KeyError m | OtherException m => m
  end.

(** [isinstance(e, requests.RequestException)] *)
Definition is_RequestException (e : exception) : bool :=
  match e with
  | HTTPError _ _ | RequestException _ => true
  | _ => false
  end.

(** [isinstance(e, ValueError)] *)
Definition is_ValueError (e : exception) : bool :=
  match e with
  | ValueError _ => true
  | _ => false
  end.

(** A call either returns or raises. *)
Inductive result (A : Type) : Type :=
| Returns (a : A)
| Raises (e : exception).
Arguments Returns {A} a.
Arguments Raises {A} e.

#[export] Instance result_ret : MRet result := @Returns.
#[export] Instance result_bind : MBind result := λ A B f r,
  match r with
  | Returns a => f a
  | Raises e => Raises e
  end.

(** [resp.json()] *)
Definition json (resp : Response) : result value :=
  match json_ resp with
  | inl v => Returns v
  | inr e => Raises e
  end.

(** [resp.raise_for_status()]: an [HTTPError] carrying the response for a
    status in 400..599. *)
Definition raise_for_status (resp : Response) : result unit :=
  if (400 <=? status_code resp)%Z && (status_code resp <? 500)%Z then
    Raises (HTTPError (Some resp)
      (str_of_Z (status_code resp) ++ py " Client Error: " ++ reason resp
         ++ py " for url: " ++ url resp))
  else if (500 <=? status_code resp)%Z && (status_code resp <? 600)%Z then
    Raises (HTTPError (Some resp)
      (str_of_Z (status_code resp) ++ py " Server Error: " ++ reason resp
         ++ py " for url: " ++ url resp))
  else Returns tt.

(** ** Library calls

    [uuid4()] yields a 128-bit number; [.hex] prints it as 32 lowercase
    hexadecimal digits. *)
Record UUID : Type := {
  int : N;
  int_range : (int <? 2 ^ 128)%N = true;
}.

Definition hex_digit (d : N) : char :=
  if (d <? 10)%N then (48 + d)%N else (87 + d)%N.

(** ['%0*x' % (width, n)] for [n < 16 ^ width]. *)
Fixpoint hex_digits (width : nat) (n : N) : str :=
  match width with
  | O => []
  | S w => hex_digits w (n / 16) ++ [hex_digit (n mod 16)]
  end.

Definition hex (u : UUID) : str := hex_digits 32 (int u).

(** A file handed over by [st.file_uploader]. *)
Record UploadedFile : Type := {
  name : str;
  content : list N;
}.

(** The Streamlit calls of the script; each draws a widget and returns. *)
Inductive st_call : Type :=
| st_warning (body : str)
| st_error (body : value)
| st_success (body : str)
| st_info (body : str)
| st_markdown (body : str)
| st_text (body : str)
| st_write (v : value)
| st_json (v : value)
| st_progress (percent : Z)
| st_empty
| st_spinner (body : str).

(** The calls that leave the program, indexed by what they answer.  Each
    carries all the arguments the script passes it: [requests.get(url,
    timeout=...)], [requests.post(url, json=..., timeout=...)],
    [s3.head_bucket(Bucket=...)], [f.seek(pos)], [s3.upload_fileobj(f,
    Bucket, Key, ExtraArgs=...)] and [time.sleep(seconds)]. *)
Inductive call : Type → Type :=
| uuid4 : call UUID
| requests_get (url : str) (timeout : Z) : call (result Response)
| requests_post (url : str) (json : gmap str value) (timeout : Z)
  : call (result Response)
| head_bucket (Bucket : str) : call (result unit)
| seek (f : UploadedFile) (pos : Z) : call (result unit)
| upload_fileobj (f : UploadedFile) (Bucket Key : str)
    (ExtraArgs : gmap str value) : call (result unit)
| sleep (seconds : Z) : call unit
| st (c : st_call) : call unit.

(** A program: a result, or a call and what to do with its answer. *)
Inductive prog (A : Type) : Type :=
| Ret (a : A)
| Do {R : Type} (c : call R) (k : R → prog A).
Arguments Ret {A} a.
Arguments Do {A R} c k.

Fixpoint bind {A B} (p : prog A) (f : A → prog B) : prog B :=
  match p with
  | Ret a => f a
  | Do c k => Do c (λ r, bind (k r) f)
  end.

Definition perform {R} (c : call R) : prog R := Do c Ret.

#[export] Instance prog_ret : MRet prog := @Ret.
#[export] Instance prog_bind : MBind prog := λ A B f p, bind p f.

(** One entry of the trace: a call that was made, and its answer. *)
Inductive event : Type :=
| Called {R : Type} (c : call R) (r : R).

(** The world answers a call knowing the calls made before it. *)
Definition world : Type := ∀ R : Type, list event → call R → R.

(** [run w tr p]: run [p] in [w] after the calls [tr]; the calls made in
    all, and the result. *)
Fixpoint run {A} (w : world) (tr : list event) (p : prog A) : list event * A :=
  match p with
  | Ret a => (tr, a)
  | Do c k => let r := w _ tr c in run w (tr ++ [Called c r]) (k r)
  end.

(** What the trace holds of each kind of call. *)
Definition drawn_uuid (e : event) : option UUID :=
  match e with
  | Called c r => match c in call R return R → option UUID with
                  | uuid4 => λ u, Some u
                  | _ => λ _, None
                  end r
  end.

Definition sought_file (e : event) : option UploadedFile :=
  match e with
  | Called c _ => match c with seek f _ => Some f | _ => None end
  end.

Definition uploaded_file (e : event) : option UploadedFile :=
  match e with
  | Called c _ => match c with upload_fileobj f _ _ _ => Some f | _ => None end
  end.

Definition uuids (tr : list event) : list UUID := omap drawn_uuid tr.
Definition sought (tr : list event) : list UploadedFile := omap sought_file tr.
Definition uploaded (tr : list event) : list UploadedFile := omap uploaded_file tr.

(** [bool(s)] for text. *)
Definition nonempty (s : str) : bool :=
  match s with [] => false | _ => true end.

(** [type(v).__name__] *)
Definition type_name (v : value) : str :=
  match v with
  | VNone => py "NoneType"
  | VBool _ => py "bool"
  | VInt _ => py "int"
  | VFloat _ => py "float"
  | VStr _ => py "str"
  | VList _ => py "list"
  | VDict _ => py "dict"
  end.

(** [d.get(k)] on a dictionary. *)
Definition dict_get (d : gmap str value) (k : str) : value :=
  default VNone (d !! k).

(** [v.get(k)] on any value: only a dictionary has the method. *)
Definition value_get (v : value) (k : str) : result value :=
  match v with
  | VDict d => Returns (dict_get d k)
  | _ => Raises (AttributeError
           (py "'" ++ type_name v ++ py "' object has no attribute 'get'"))
  end.

(** [a or b]: [b] is evaluated only when [a] is not truthy. *)
Definition py_or (a b : result value) : result value :=
  v ← a; if truthy v then mret v else b.

(** [d[k]] *)
Definition dict_item (d : gmap str value) (k : str) : result value :=
  match d !! k with
  | Some v => Returns v
  | None => Raises (KeyError (py "'" ++ k ++ py "'"))
  end.

(** The value of an optional setting: the text, or [None]. *)
Definition value_of_setting (o : option str) : value :=
  from_option VStr VNone o.

(** [botocore.config.Config(...)], with the options the script passes. *)
Record Config : Type := {
  signature_version : option str;
  retries : option (gmap str value);
}.

(** The arguments of [boto3.client]. *)
Record ClientArgs : Type := {
  service_name : str;
  endpoint_url : option str;
  config : Config;
  kwargs : gmap str value;
}.

(** ** The script *)

Section App.

(** [os.getenv(name)] after [load_dotenv()]. *)
Variable getenv : str → option str.
(** [str(v)], as an f-string prints a value. *)
Variable py_str : value → str.
(** [json.loads(s)] *)
Variable json_loads : str → result value.

(** *** Config *)

Definition POD_ID : str := default (py "i1q8dnudt5raii") (getenv (py "POD_ID")).
Definition BACKEND_PORT : str := py "8000".
Definition BACKEND_URL : str :=
  py "https://" ++ POD_ID ++ py "-" ++ BACKEND_PORT ++ py ".proxy.runpod.net/".

Definition BUCKET_NAME : str :=
  default (py "rag-teste-bnu") (getenv (py "BUCKET_NAME")).
Definition S3_ENDPOINT : option str := getenv (py "S3_ENDPOINT").
Definition AWS_REGION : str := default (py "us-east-1") (getenv (py "AWS_REGION")).
Definition AWS_ACCESS_KEY_ID : option str := getenv (py "AWS_ACCESS_KEY_ID").
Definition AWS_SECRET_ACCESS_KEY : option str := getenv (py "AWS_SECRET_ACCESS_KEY").
Definition AWS_SESSION_TOKEN : option str := getenv (py "AWS_SESSION_TOKEN").
Definition PREFIX_BASE : str := py "uploads".

Definition s3_safe_key (name : str) : prog str :=
  let ext :=
    if contains_char dot name then dot :: last_item (split dot name) else [] in
  u ← perform uuid4;
  mret (hex u ++ ext).

Definition check_health_server : prog (result bool) :=
  r ← perform (requests_get (BACKEND_URL ++ py "/health") 10);
  mret match r with
       | Returns resp => Returns (status_code resp =? 200)%Z
       | Raises e =>
         if is_RequestException e then Returns false else Raises e
       end.

(** *** The S3 client *)

Definition session_kwargs : gmap str value :=
  let kw : gmap str value :=
    <[py "region_name" := VStr AWS_REGION]>
      (<[py "aws_secret_access_key" := value_of_setting AWS_SECRET_ACCESS_KEY]>
         {[py "aws_access_key_id" := value_of_setting AWS_ACCESS_KEY_ID]}) in
  match AWS_SESSION_TOKEN with
  | Some (c :: t) => <[py "aws_session_token" := VStr (c :: t)]> kw
  | _ => kw
  end.

Definition s3 : ClientArgs := {|
  service_name := py "s3";
  endpoint_url := S3_ENDPOINT ≫= or_none;
  config := {|
    signature_version := Some (py "s3v4");
    retries := Some (<[py "mode" := VStr (py "standard")]>
                       {[py "max_attempts" := VInt 3]});
  |};
  kwargs := session_kwargs;
|}.

Definition check_s3_access : prog (result (bool * str)) :=
  r ← perform (head_bucket BUCKET_NAME);
  mret match r with
       | Returns _ => Returns (true, py "Acesso ao bucket OK.")
       | Raises e =>
         match e with
         | NoCredentialsError _ =>
           Returns (false, py "Credenciais AWS ausentes.")
         | EndpointConnectionError _ =>
           Returns (false,
             py "Falha ao conectar no endpoint S3 ("
               ++ default (py "AWS padrão") (S3_ENDPOINT ≫= or_none)
               ++ py "): " ++ str_of_exception e)
         | ClientError err _ =>
           Returns (false,
             py "ClientError ao acessar bucket: "
               ++ py_str (VDict (default ∅ err)))
         | _ =>
           Returns (false, py "Erro inesperado no S3: " ++ str_of_exception e)
         end
       end.

(** *** The query *)

(** The [except] clauses of [perguntar_backend]. *)
Definition perguntar_backend_except (e : exception) : result (gmap str value) :=
  match e with
  | HTTPError response _ =>
    let msg := match response with
               | Some r => text r
               | None => str_of_exception e
               end in
    let status := match response with
                  | Some r => str_of_Z (status_code r)
                  | None => py "?"
                  end in
    Returns (<[py "error" := VStr (py "HTTP " ++ status ++ py ": " ++ msg)]>
               {[py "ok" := VBool false]})
  | RequestException _ =>
    Returns (<[py "error" :=
                 VStr (py "Falha de conexão com o backend: " ++ str_of_exception e)]>
               {[py "ok" := VBool false]})
  | _ => Raises e
  end.

(** The payload built before the request: the lines from
    [payload = {...}] to [payload["documents"] = documentos]. *)
Definition chat_payload (pergunta : str) (k : Z)
    (namespace : option str) (documentos : option value) : gmap str value :=
  let payload : gmap str value :=
    <[py "k" := VInt k]> {[py "question" := VStr (strip pergunta)]} in
  let payload :=
    match namespace with
    | Some (c :: n) => <[py "namespace" := VStr (c :: n)]> payload
    | _ => payload
    end in
  match documentos with
  | Some d => if truthy d then <[py "documents" := d]> payload else payload
  | None => payload
  end.

(** The body of the [try] once [requests.post] has answered. *)
Definition chat_reply (r : result Response) : result (gmap str value) :=
  match r with
  | Returns resp =>
    match raise_for_status resp with
    | Returns _ =>
      match json resp with
      | Returns data =>
        Returns (<[py "data" := data]> {[py "ok" := VBool true]})
      | Raises e =>
        if is_ValueError e then
          Returns (<[py "data" := VDict {[py "raw" := VStr (text resp)]}]>
                     {[py "ok" := VBool true]})
        else perguntar_backend_except e
      end
    | Raises e => perguntar_backend_except e
    end
  | Raises e => perguntar_backend_except e
  end.

Definition perguntar_backend (pergunta : str) (k : Z)
    (namespace : option str) (documentos : option value)
  : prog (result (gmap str value)) :=
  if negb (nonempty pergunta) || negb (nonempty (strip pergunta)) then
    mret (Returns (<[py "error" := VStr (py "Pergunta vazia.")]>
                     {[py "ok" := VBool false]}))
  else
    let payload := chat_payload pergunta k namespace documentos in
    r ← perform (requests_post (BACKEND_URL ++ py "/chat") payload 300);
    mret (chat_reply r).

(** *** The upload *)

(** The two lists the loop fills: the keys sent, and the names that failed
    with the reason. *)
Abbreviation report := (list str * list (str * str))%type (only parsing).

(** The [except] clauses of the loop body: the reason recorded in
    [falhas], and the message shown. *)
Definition upload_except (f : UploadedFile) (e : exception) : str * str :=
  match e with
  | NoCredentialsError _ =>
    (py "NoCredentialsError (credenciais ausentes)",
     py "⚠️ Credenciais da AWS não disponíveis.")
  | EndpointConnectionError _ =>
    (py "EndpointConnectionError: " ++ str_of_exception e,
     py "🌐 Falha de conexão com o endpoint S3: " ++ str_of_exception e)
  | ClientError err _ =>
    let err := default ∅ err in
    (py_str (dict_get err (py "Code")) ++ py " - "
       ++ py_str (dict_get err (py "Message")),
     py "❌ Erro do cliente S3 ao enviar " ++ name f ++ py ": "
       ++ py_str (VDict err))
  | _ =>
    (str_of_exception e,
     py "❌ Erro ao enviar " ++ name f ++ py ": " ++ str_of_exception e)
  end.

(** One turn of [for f in uploaded_files]. *)
Definition upload_one (f : UploadedFile) (acc : report) : prog report :=
  let '(enviados, falhas) := acc in
  perform (st (st_progress 0));;
  perform (st st_empty);;
  safe ← s3_safe_key (name f);
  let key := PREFIX_BASE ++ py "/" ++ safe in
  r ← (positioned ← perform (seek f 0);
       match positioned with
       | Returns _ =>
         perform (upload_fileobj f BUCKET_NAME key
                    {[py "ContentType" := VStr (py "application/pdf")]})
       | Raises e => mret (Raises e)
       end);
  match r with
  | Returns _ =>
    perform (st (st_progress 100));;
    perform (st (st_text (py "Concluído ✅")));;
    perform (st (st_success
      (py "✅ Enviado: s3://" ++ BUCKET_NAME ++ py "/" ++ key)));;
    mret (enviados ++ [key], falhas)
  | Raises e =>
    perform (st st_empty);;
    perform (st st_empty);;
    perform (st (st_error (VStr (upload_except f e).2)));;
    mret (enviados, falhas ++ [(name f, (upload_except f e).1)])
  end.

Fixpoint upload_loop (files : list UploadedFile) (acc : report) : prog report :=
  match files with
  | [] => mret acc
  | f :: rest => acc' ← upload_one f acc; upload_loop rest acc'
  end.

Fixpoint write_lines (lines : list str) : prog unit :=
  match lines with
  | [] => mret tt
  | l :: rest => perform (st (st_write (VStr l)));; write_lines rest
  end.

(** The handler of the button "Enviar para S3"; it returns the two lists
    it showed. *)
Definition enviar_para_s3 (uploaded_files : list UploadedFile) : prog report :=
  match uploaded_files with
  | [] =>
    perform (st (st_warning (py "Nenhum arquivo selecionado.")));;
    mret ([], [])
  | _ =>
    '(enviados, falhas) ← upload_loop uploaded_files ([], []);
    (if bool_decide (enviados = []) then mret tt
     else
       perform (st (st_info (py "Arquivos enviados com sucesso:")));;
       write_lines ((λ k_, py "- s3://" ++ BUCKET_NAME ++ py "/" ++ k_) <$> enviados));;
    (if bool_decide (falhas = []) then mret tt
     else
       perform (st (st_warning (py "Falhas:")));;
       write_lines ((λ nm, py "- " ++ nm.1 ++ py ": " ++ nm.2) <$> falhas));;
    mret (enviados, falhas)
  end.

(** *** The answer *)

(** What the page shows of a reply of [perguntar_backend]: the branch
    [if resposta["ok"]] and its [else]. *)
Definition mostrar_resposta (resposta : gmap str value) : prog (result unit) :=
  match dict_item resposta (py "ok") with
  | Raises e => mret (Raises e)
  | Returns ok =>
    if truthy ok then
      match dict_item resposta (py "data") with
      | Raises e => mret (Raises e)
      | Returns data =>
        let answer :=
          py_or (value_get data (py "answer"))
            (py_or (value_get data (py "resposta"))
               (py_or (value_get data (py "raw")) (Returns data))) in
        match answer with
        | Raises e => mret (Raises e)
        | Returns answer =>
          match py_or (value_get data (py "sources"))
                  (value_get data (py "fontes")) with
          | Raises e => mret (Raises e)
          | Returns fontes =>
            perform (st (st_markdown (py "### Resposta:")));;
            match answer with
            | VDict _ | VList _ => perform (st (st_json answer))
            | _ => perform (st (st_write answer))
            end;;
            (if truthy fontes then
               perform (st (st_markdown (py "### Fontes:")));;
               perform (st (st_json fontes))
             else mret tt);;
            mret (Returns tt)
          end
        end
      end
    else
      match dict_item resposta (py "error") with
      | Raises e => mret (Raises e)
      | Returns msg => perform (st (st_error msg));; mret (Returns tt)
      end
  end.

(** The handler of the button "Enviar". *)
Definition enviar (pergunta : str) (k : Z) (namespace docs_json : str)
  : prog (result unit) :=
  documentos ←
    (if nonempty (strip docs_json) then
       match json_loads docs_json with
       | Returns v => mret (Some v)
       | Raises e =>
         perform (st (st_warning
           (py "Documentos inválidos: " ++ str_of_exception e)));;
         mret None
       end
     else mret None);
  perform (st (st_spinner (py "Consultando os documentos...")));;
  resposta ← perguntar_backend pergunta k (or_none namespace) documentos;
  match resposta with
  | Returns resposta => mostrar_resposta resposta
  | Raises e => mret (Raises e)
  end.

End App.

Arguments py : simpl never.
Arguments str_of_Z : simpl never.
Arguments strip : simpl never.
Arguments hex : simpl never.
Arguments POD_ID getenv /.
Arguments BACKEND_URL getenv /.
Arguments BUCKET_NAME getenv /.

(** ** Reading the specification

    Definitions that follow the words of the specification, to compare with
    the script's. *)

(** "the original base filename": the name without its extension. *)
Definition base_name (name : str) : str :=
  if contains_char dot name then
    take (length name - length (last_item (split dot name)) - 1) name
  else name.

(** "contains": as a run of consecutive characters. *)
Definition contains (s part : str) : Prop := ∃ l1 l2, s = l1 ++ part ++ l2.

(** The number a text of hexadecimal digits writes. *)
Definition digit_value (c : char) : N :=
  if (c <? 58)%N then (c - 48)%N else (c - 87)%N.

Definition hex_value (s : str) : N :=
  foldl (λ acc c, acc * 16 + digit_value c)%N 0%N s.

Definition is_hex_char (c : char) : bool :=
  ((48 <=? c) && (c <=? 57) || (97 <=? c) && (c <=? 102))%N.

(** "non-empty": neither null nor a text, list or object without elements. *)
Definition is_nonempty (v : value) : bool :=
  match v with
  | VNone | VStr [] | VList [] => false
  | VDict d => negb (bool_decide (size d = 0))
  | _ => true
  end.

(** "trying the keys in that order": the value of the first key that is
    there and passes the test. *)
Fixpoint first_key (test : value → bool) (d : gmap str value)
    (keys : list str) : option value :=
  match keys with
  | [] => None
  | k :: rest =>
    match d !! k with
    | Some v => if test v then Some v else first_key test d rest
    | None => first_key test d rest
    end
  end.

(** "no custom retry count or retry mode set by this program". *)
Definition library_default_retries (c : Config) : Prop :=
  ∀ r, retries c = Some r → r !! py "max_attempts" = None ∧ r !! py "mode" = None.

(** "a dictionary containing a boolean key ok", with "data" when it is
    true and "error", a message, when it is false. *)
Definition reply_shape (d : gmap str value) : Prop :=
  ∃ b : bool,
    d !! py "ok" = Some (VBool b) ∧
    if b then is_Some (d !! py "data") ∧ d !! py "error" = None
    else d !! py "data" = None ∧ ∃ m, d !! py "error" = Some (VStr m).

(** What became of one file: the key it was sent under, or its name and
    the reason it failed. *)
Abbreviation outcome := (str + str * str)%type (only parsing).

Definition sent_keys (os : list outcome) : list str :=
  omap (λ o, match o with inl key => Some key | inr _ => None end) os.

Definition failures (os : list outcome) : list (str * str) :=
  omap (λ o, match o with inl _ => None | inr nr => Some nr end) os.

(** "a uuid plus the file's extension, under the uploads/ prefix". *)
Definition key_for (u : UUID) (name key : str) : Prop :=
  (dot ∉ name → key = py "uploads/" ++ hex u) ∧
  (∀ pre ext, name = pre ++ dot :: ext → dot ∉ ext →
     key = py "uploads/" ++ hex u ++ dot :: ext).

Section Recorded.
Variable getenv : str → option str.
Variable py_str : value → str.

(** How the trace [es] bears out what was recorded for the file [f], which
    drew the UUID [uo.1].  The file was given a key made from that UUID,
    and the upload was attempted: [f.seek(0)] was called, and when it
    returned [upload_fileobj] was called on [f] with the bucket, that key
    and the content type of a PDF.  The key is recorded when both calls
    returned.  Otherwise the name of the file is recorded, with the reason
    the [except] clauses give for the exception that [f.seek] or
    [upload_fileobj] raised. *)
Definition recorded (es : list event) (f : UploadedFile)
    (uo : UUID * outcome) : Prop :=
  ∃ key,
    key_for uo.1 (name f) key ∧
    match uo.2 with
    | inl sent =>
      sent = key ∧
      Called (seek f 0) (Returns tt) ∈ es ∧
      Called (upload_fileobj f (BUCKET_NAME getenv) key
                {[py "ContentType" := VStr (py "application/pdf")]})
        (Returns tt) ∈ es
    | inr (n, reason) =>
      n = name f ∧
      ∃ e, reason = (upload_except py_str f e).1 ∧
           (Called (seek f 0) (Raises e) ∈ es ∨
            Called (seek f 0) (Returns tt) ∈ es ∧
            Called (upload_fileobj f (BUCKET_NAME getenv) key
                      {[py "ContentType" := VStr (py "application/pdf")]})
              (Raises e) ∈ es)
    end.

End Recorded.

(** ** Worlds to run the script in *)

(** Nothing is set in the environment. *)
Definition no_env : str → option str := λ _, None.

(** [str(v)] where it is plain: [None], booleans, integers and text. *)
Definition str_plain (v : value) : str :=
  match v with
  | VNone => py "None"
  | VBool true => py "True"
  | VBool false => py "False"
  | VInt z => str_of_Z z
  | VStr s => s
  | _ => py "..."
  end.

(** A world given by what each library answers. *)
Record answers : Type := {
  on_uuid4 : list event → UUID;
  on_get : str → result Response;
  on_post : str → gmap str value → result Response;
  on_head_bucket : str → result unit;
  on_seek : UploadedFile → result unit;
  on_upload : UploadedFile → str → result unit;
}.

Definition world_of (a : answers) : world := λ R tr c,
  match c in call R return R with
  | uuid4 => on_uuid4 a tr
  | requests_get url _ => on_get a url
  | requests_post url json _ => on_post a url json
  | head_bucket b => on_head_bucket a b
  | seek f _ => on_seek a f
  | upload_fileobj f _ Key _ => on_upload a f Key
  | sleep _ => tt
  | st _ => tt
  end.

(** The UUID whose number is [n], cut to 128 bits. *)
Definition uuid_of_N (n : N) : UUID :=
  {| int := n mod 2 ^ 128;
     int_range := ltac:(apply N.ltb_lt, N.mod_lt, N.pow_nonzero; discriminate) |}.

Definition uuid_of_zero : UUID := {| int := 0; int_range := eq_refl |}.

(** A reply with status 200 and the given body, which decodes to the given
    value or is not JSON. *)
Definition ok_response (body : str) (decoded : option value) : Response := {|
  status_code := 200;
  reason := py "OK";
  url := py "https://i1q8dnudt5raii-8000.proxy.runpod.net//chat";
  text := body;
  json_ := match decoded with
           | Some v => inl v
           | None => inr (ValueError (py "Expecting value: line 1 column 1 (char 0)"))
           end;
|}.

(** A reply with status 200 whose body, 100000 brackets that open and as
    many that close, is nested too deep for [json()]. *)
Definition nested_too_deep : Response := {|
  status_code := 200;
  reason := py "OK";
  url := py "https://i1q8dnudt5raii-8000.proxy.runpod.net//chat";
  text := repeat 91%N (N.to_nat 100000) ++ repeat 93%N (N.to_nat 100000);
  json_ := inr (OtherException
                  (py "maximum recursion depth exceeded while decoding a JSON array from a unicode string"));
|}.

(** The backend is down and the bucket is there. *)
Definition offline : answers := {|
  on_uuid4 := λ _, uuid_of_zero;
  on_get := λ _, Raises (RequestException (py "Connection refused"));
  on_post := λ _ _, Raises (RequestException (py "Connection refused"));
  on_head_bucket := λ _, Returns tt;
  on_seek := λ _, Returns tt;
  on_upload := λ _ _, Returns tt;
|}.

(** The backend answers every question with the given reply. *)
Definition replying (resp : Response) : answers := {|
  on_uuid4 := λ _, uuid_of_zero;
  on_get := λ _, Returns resp;
  on_post := λ _ _, Returns resp;
  on_head_bucket := λ _, Returns tt;
  on_seek := λ _, Returns tt;
  on_upload := λ _ _, Returns tt;
|}.

(** The bucket refuses the files whose name starts with an [x]. *)
Definition picky : answers := {|
  on_uuid4 := λ tr, uuid_of_N (N.of_nat (length tr));
  on_get := λ _, Raises (RequestException (py "Connection refused"));
  on_post := λ _ _, Raises (RequestException (py "Connection refused"));
  on_head_bucket := λ _, Returns tt;
  on_seek := λ _, Returns tt;
  on_upload := λ f _,
    match name f with
    | 120%N :: _ => Raises (ClientError
        (Some (<[py "Message" := VStr (py "Access Denied")]>
                 {[py "Code" := VStr (py "AccessDenied")]}))
        (py "An error occurred (AccessDenied)"))
    | _ => Returns tt
    end;
|}.

(** Two files, the second of which the [picky] bucket refuses. *)
Definition two_files : list UploadedFile :=
  [ {| name := py "a.pdf"; content := [] |};
    {| name := py "x.pdf"; content := [] |} ].

(** A reply of the backend with an answer and its sources. *)
Definition answered : gmap str value :=
  <[py "data" := VDict (<[py "fontes" := VList [VStr (py "doc1")]]>
                          {[py "answer" := VStr (py "42")]})]>
    {[py "ok" := VBool true]}.

(** The trace of a run of Streamlit calls. *)
Definition widgets (ls : list st_call) : list event :=
  (λ c, Called (st c) tt) <$> ls.

(** Two keys of a dictionary differ: compare their code points. *)
Ltac key_neq := let H := fresh in intros H; vm_compute in H; discriminate H.

(** ** Further observations of a run *)

(** A text that does not begin with whitespace. *)
Definition starts_clean (s : str) : Prop :=
  ∀ c, head s = Some c → isspace c = false.

(** A text that does not end with whitespace. *)
Definition ends_clean (s : str) : Prop :=
  ∀ c, last s = Some c → isspace c = false.

(** The requests posted, as the trace holds them: the URL, the payload and
    the timeout of each. *)
Definition posted (e : event) : option (str * gmap str value * Z) :=
  match e with
  | Called c _ =>
    match c with
    | requests_post url json timeout => Some (url, json, timeout)
    | _ => None
    end
  end.

Definition posts (tr : list event) : list (str * gmap str value * Z) :=
  omap posted tr.

(** The widgets drawn, as the trace holds them. *)
Definition drawn (e : event) : option st_call :=
  match e with
  | Called c _ => match c with st sc => Some sc | _ => None end
  end.

Definition shown (tr : list event) : list st_call := omap drawn tr.

(** A program that only draws widgets. *)
Inductive only_draws {A} : prog A → Prop :=
| only_draws_ret (a : A) : only_draws (Ret a)
| only_draws_st (c : st_call) (k : unit → prog A) :
    only_draws (k tt) → only_draws (Do (st c) k).

(** ** The other buttons *)

Section Buttons.
Variable getenv : str → option str.
Variable py_str : value → str.

(** The handler of the button "Verificar Servidor de IA": the message is
    drawn in a placeholder, which is emptied after five seconds. *)
Definition verificar_servidor : prog (result unit) :=
  r ← check_health_server getenv;
  match r with
  | Returns ok =>
    perform (st st_empty);;
    (if ok : bool then perform (st (st_success (py "Servidor OK ✅")))
     else perform (st (st_error (VStr (py "Servidor Indisponível ❌")))));;
    perform (sleep 5);;
    perform (st st_empty);;
    mret (Returns tt)
  | Raises e => mret (Raises e)
  end.

(** The handler of the button "Testar acesso ao S3". *)
Definition testar_acesso_s3 : prog (result unit) :=
  r ← check_s3_access getenv py_str;
  match r with
  | Returns (ok, msg) =>
    (if ok : bool then perform (st (st_success msg))
     else perform (st (st_error (VStr msg))));;
    mret (Returns tt)
  | Raises e => mret (Raises e)
  end.

(** The handler of the button "Atualizar base de conhecimento": [pass]. *)
Definition atualizar_base : prog unit := mret tt.

End Buttons.

(** ** What a run accounts for *)

(** The extension of a file name: what follows its last dot, when it has
    a dot. *)
Definition extension (s : str) : option str :=
  if bool_decide (dot ∈ s) then last (split dot s) else None.

(** An entry of the trace holds an answer the world gave to its call. *)
Definition answered_by (w : world) (e : event) : Prop :=
  match e with
  | Called c r => ∃ tr, r = w _ tr c
  end.

(** ** The calls a program can make *)

(** A program all of whose calls, whatever they are answered, are among
    those that [P] allows. *)
Inductive only_calls (P : ∀ R, call R → Prop) {A} : prog A → Prop :=
| only_calls_ret (a : A) : only_calls P (Ret a)
| only_calls_do {R} (c : call R) (k : R → prog A) :
    P R c → (∀ r, only_calls P (k r)) → only_calls P (Do c k).

(** The call of an entry of the trace is among those that [P] allows. *)
Definition allowed (P : ∀ R, call R → Prop) (e : event) : Prop :=
  match e with
  | Called c _ => P _ c
  end.

(** The calls of an upload of [files]: widgets, UUIDs, and for a file of
    the selection [f.seek(0)] and [upload_fileobj] into the bucket, under
    the prefix [uploads/], as a PDF. *)
Definition upload_call (getenv : str → option str) (files : list UploadedFile)
    (R : Type) (c : call R) : Prop :=
  match c with
  | st _ | uuid4 => True
  | seek f pos => f ∈ files ∧ pos = 0%Z
  | upload_fileobj f b key args =>
    f ∈ files ∧ b = BUCKET_NAME getenv ∧
    (∃ rest, key = py "uploads/" ++ rest) ∧
    args = {[py "ContentType" := VStr (py "application/pdf")]}
  | _ => False
  end.

(** The calls of a question: widgets, and a POST to the route [/chat] with
    a timeout of 300 seconds. *)
Definition question_call (getenv : str → option str) (R : Type) (c : call R)
  : Prop :=
  match c with
  | st _ => True
  | requests_post url _ timeout =>
    url = BACKEND_URL getenv ++ py "/chat" ∧ timeout = 300%Z
  | _ => False
  end.

(** ** More worlds *)

(** The credentials are missing: every upload is refused. *)
Definition without_credentials : answers := {|
  on_uuid4 := λ tr, uuid_of_N (N.of_nat (length tr));
  on_get := λ _, Raises (RequestException (py "Connection refused"));
  on_post := λ _ _, Raises (RequestException (py "Connection refused"));
  on_head_bucket := λ _, Raises (NoCredentialsError (py "Unable to locate credentials"));
  on_seek := λ _, Returns tt;
  on_upload := λ _ _, Raises (NoCredentialsError (py "Unable to locate credentials"));
|}.

(** A reply with status 503. *)
Definition unavailable : Response := {|
  status_code := 503;
  reason := py "Service Unavailable";
  url := py "https://i1q8dnudt5raii-8000.proxy.runpod.net//chat";
  text := py "upstream down";
  json_ := inr (ValueError (py "Expecting value: line 1 column 1 (char 0)"));
|}.

(** A [json.loads] that accepts nothing. *)
Definition rejects_all : str → result value :=
  λ _, Raises (ValueError (py "Expecting value")).

(** * Properties *)

(** ** Text *)

Example py_ascii : py "a.b" = [97; 46; 98]%N.
Proof. reflexivity. Qed.

Example py_latin : py "padrão" = [112; 97; 100; 114; 227; 111]%N.
Proof. reflexivity. Qed.

Example py_emoji : py "✅" = [9989]%N.
Proof. reflexivity. Qed.

Example str_of_Z_404 : str_of_Z 404 = py "404".
Proof. reflexivity. Qed.

Example strip_ex : strip (py "  o que é?  ") = py "o que é?".
Proof. reflexivity. Qed.

Example split_ex : split dot (py "a.b.") = [py "a"; py "b"; py ""].
Proof. reflexivity. Qed.

Lemma lstrip_nil (s : str) : lstrip s = [] ↔ forallb isspace s = true.
Proof.
  induction s as [|c s IH]; simpl; [done|].
  destruct (isspace c); simpl; [done|]. split; done.
Qed.

Lemma lstrip_head (s : str) c t : lstrip s = c :: t → isspace c = false.
Proof.
  induction s as [|a s IH]; simpl; [done|].
  destruct (isspace a) eqn:E; [done|]. by intros [= <- _].
Qed.

Lemma forallb_reverse {A} (f : A → bool) (l : list A) :
  forallb f (reverse l) = forallb f l.
Proof.
  induction l as [|a l IH]; [done|].
  rewrite reverse_cons, forallb_app, IH. simpl. rewrite andb_true_r. apply andb_comm.
Qed.

Lemma strip_nil (s : str) : strip s = [] ↔ forallb isspace s = true.
Proof.
  unfold strip, rstrip. split.
  - intros H. apply (f_equal reverse) in H. rewrite reverse_involutive in H.
    change (reverse []) with (@nil N) in H.
    apply lstrip_nil in H. rewrite forallb_reverse in H.
    destruct (lstrip s) as [|c t] eqn:E; [by apply lstrip_nil|].
    apply lstrip_head in E. simpl in H. rewrite E in H. done.
  - intros H. apply lstrip_nil in H. by rewrite H.
Qed.

Lemma split_not_nil sep s : split sep s ≠ [].
Proof.
  destruct s as [|c s]; simpl; [done|].
  case_bool_decide; [done|]. by destruct (split sep s).
Qed.

Lemma split_no_sep sep s : sep ∉ s → split sep s = [s].
Proof.
  induction s as [|c s IH]; simpl; [done|].
  intros H. apply not_elem_of_cons in H as [H1 H2].
  rewrite bool_decide_eq_false_2 by done. by rewrite IH.
Qed.

Lemma split_single sep s p : split sep s = [p] → sep ∉ s.
Proof.
  revert p. induction s as [|a s IH]; intros p E; [by apply not_elem_of_nil|].
  simpl in E. destruct (decide (a = sep)) as [->|Hne].
  - rewrite bool_decide_eq_true_2 in E by done.
    pose proof (split_not_nil sep s). by destruct (split sep s).
  - rewrite bool_decide_eq_false_2 in E by done.
    destruct (split sep s) as [|q qs] eqn:E'; [by destruct (split_not_nil sep s)|].
    injection E as _ ->. apply not_elem_of_cons. split; [done|]. by eapply IH.
Qed.

Lemma last_split_cons sep c s :
  last (split sep (c :: s)) =
  if bool_decide (sep ∈ s) then last (split sep s)
  else if bool_decide (c = sep) then Some s else Some (c :: s).
Proof.
  pose proof (split_not_nil sep s) as Hn.
  simpl. destruct (decide (sep ∈ s)) as [Hs|Hs].
  - rewrite (bool_decide_eq_true_2 (sep ∈ s)) by done.
    destruct (split sep s) as [|p ps] eqn:E; [done|].
    case_bool_decide; [done|].
    destruct ps as [|p' ps]; [|done].
    by apply split_single in E.
  - rewrite (bool_decide_eq_false_2 (sep ∈ s)) by done.
    rewrite (split_no_sep sep s Hs). by case_bool_decide.
Qed.

Lemma last_split_app sep pre ext :
  sep ∉ ext → last (split sep (pre ++ sep :: ext)) = Some ext.
Proof.
  intros H. induction pre as [|c pre IH].
  - rewrite app_nil_l, last_split_cons. rewrite bool_decide_eq_false_2 by done.
    by rewrite bool_decide_eq_true_2.
  - rewrite <-app_comm_cons, last_split_cons.
    rewrite bool_decide_eq_true_2; [done|]. set_solver.
Qed.

(** ** Hexadecimal digits *)

Lemma length_hex_digits w n : length (hex_digits w n) = w.
Proof.
  revert n. induction w as [|w IH]; intros n; simpl; [done|].
  rewrite length_app, IH. simpl. lia.
Qed.

Lemma hex_digit_is_hex d : (d < 16)%N → is_hex_char (hex_digit d) = true.
Proof.
  intros H. unfold hex_digit, is_hex_char.
  destruct (N.ltb_spec d 10).
  - apply orb_true_iff. left. apply andb_true_iff. split; apply N.leb_le; lia.
  - apply orb_true_iff. right. apply andb_true_iff. split; apply N.leb_le; lia.
Qed.

Lemma hex_digits_are_hex w n : forallb is_hex_char (hex_digits w n) = true.
Proof.
  revert n. induction w as [|w IH]; intros n; simpl; [done|].
  rewrite forallb_app, IH. simpl. rewrite hex_digit_is_hex; [done|].
  apply N.mod_lt. done.
Qed.

Lemma digit_value_hex_digit d : (d < 16)%N → digit_value (hex_digit d) = d.
Proof.
  intros H. unfold digit_value, hex_digit.
  destruct (N.ltb_spec d 10).
  - destruct (N.ltb_spec (48 + d) 58); lia.
  - destruct (N.ltb_spec (87 + d) 58); lia.
Qed.

Lemma hex_value_digits w n : (n < 16 ^ N.of_nat w)%N → hex_value (hex_digits w n) = n.
Proof.
  revert n. induction w as [|w IH]; intros n Hn.
  - cbn in *. lia.
  - cbn [hex_digits]. unfold hex_value in *. rewrite foldl_app. cbn [foldl].
    rewrite IH, digit_value_hex_digit.
    + pose proof (N.div_mod n 16). lia.
    + apply N.mod_lt. lia.
    + rewrite Nat2N.inj_succ, N.pow_succ_r' in Hn.
      apply N.Div0.div_lt_upper_bound. lia.
Qed.

Lemma hex_value_hex (u : UUID) : hex_value (hex u) = int u.
Proof.
  apply hex_value_digits. pose proof (int_range u) as H.
  apply N.ltb_lt in H. exact H.
Qed.

Lemma hex_inj (u v : UUID) : hex u = hex v → int u = int v.
Proof. intros H. by rewrite <-(hex_value_hex u), <-(hex_value_hex v), H. Qed.

Example hex_255 : hex (uuid_of_N 255) = py "000000000000000000000000000000ff".
Proof. vm_compute. reflexivity. Qed.

(** ** Running programs *)

Lemma run_bind {A B} (w : world) (p : prog A) (f : A → prog B) tr :
  run w tr (p ≫= f) = run w (run w tr p).1 (f (run w tr p).2).
Proof.
  revert tr. induction p as [a|R c k IH]; intros tr; [done|].
  cbn. apply IH.
Qed.

Lemma run_st {A} (w : world) (c : st_call) (k : unit → prog A) tr :
  run w tr (Do (st c) k) = run w (tr ++ [Called (st c) tt]) (k tt).
Proof. cbn. by destruct (w unit tr (st c)). Qed.

Lemma run_perform_st (w : world) (c : st_call) tr :
  run w tr (perform (st c)) = (tr ++ [Called (st c) tt], tt).
Proof. unfold perform. by rewrite run_st. Qed.

Lemma run_perform {R} (w : world) (c : call R) tr :
  run w tr (perform c) = (tr ++ [Called c (w _ tr c)], w _ tr c).
Proof. reflexivity. Qed.

Lemma run_ret {A} (w : world) (a : A) tr : run w tr (mret a) = (tr, a).
Proof. reflexivity. Qed.

(** ** [s3_safe_key] *)

Lemma s3_safe_key_run w tr name :
  run w tr (s3_safe_key name) =
  (tr ++ [Called uuid4 (w _ tr uuid4)],
   hex (w _ tr uuid4) ++
     (if contains_char dot name then dot :: last_item (split dot name) else [])).
Proof. reflexivity. Qed.

Lemma s3_safe_key_no_dot w tr name :
  dot ∉ name → (run w tr (s3_safe_key name)).2 = hex (w _ tr uuid4).
Proof.
  intros H. rewrite s3_safe_key_run. cbn. unfold contains_char.
  rewrite bool_decide_eq_false_2 by exact H. apply app_nil_r.
Qed.

Lemma s3_safe_key_ext w tr pre ext :
  dot ∉ ext →
  (run w tr (s3_safe_key (pre ++ dot :: ext))).2 = hex (w _ tr uuid4) ++ dot :: ext.
Proof.
  intros H. rewrite s3_safe_key_run. cbn. unfold contains_char, last_item.
  rewrite bool_decide_eq_true_2.
  - by rewrite last_split_app.
  - apply elem_of_app. right. apply elem_of_cons. by left.
Qed.

Example s3_safe_key_two_dots :
  (run (world_of offline) [] (s3_safe_key (py "relatorio.final.pdf"))).2
  = py "00000000000000000000000000000000.pdf".
Proof. vm_compute. reflexivity. Qed.

Example s3_safe_key_trailing_dot :
  (run (world_of offline) [] (s3_safe_key (py "notas."))).2
  = py "00000000000000000000000000000000.".
Proof. vm_compute. reflexivity. Qed.

(** C10, as amended.  For every file name and every UUID that [uuid4]
    draws, [s3_safe_key] makes that one draw and returns the 32 hexadecimal
    digits of the UUID when the name has no dot, and otherwise those digits,
    a dot and what follows the last dot of the name.  The key is built from
    the UUID and the extension alone: two names with the same extension
    get the same key from the same draw, whatever comes before the last
    dot. *)
Theorem s3_safe_key_shape (w : world) (tr : list event) (name : str) :
  ∃ u : UUID,
    length (hex u) = 32 ∧ forallb is_hex_char (hex u) = true ∧
    (run w tr (s3_safe_key name)).1 = tr ++ [Called uuid4 u] ∧
    (dot ∉ name → (run w tr (s3_safe_key name)).2 = hex u) ∧
    (∀ pre ext, name = pre ++ dot :: ext → dot ∉ ext →
       (run w tr (s3_safe_key name)).2 = hex u ++ dot :: ext ∧
       ∀ pre', (run w tr (s3_safe_key (pre' ++ dot :: ext))).2
               = (run w tr (s3_safe_key name)).2).
Proof.
  exists (w _ tr uuid4).
  split; [apply length_hex_digits|]. split; [apply hex_digits_are_hex|].
  split; [reflexivity|]. split; [apply s3_safe_key_no_dot|].
  intros pre ext -> Hext. split; [by apply s3_safe_key_ext|].
  intros pre'. by rewrite !s3_safe_key_ext.
Qed.

Example base_name_pdf : base_name (py "pdf.pdf") = py "pdf".
Proof. vm_compute. reflexivity. Qed.

(** C10 as it is written fails: the key of [pdf.pdf] ends in [.pdf] and so
    contains the base name [pdf] of the file, whatever UUID is drawn. *)
Lemma key_contains_base_name :
  contains (run (world_of offline) [] (s3_safe_key (py "pdf.pdf"))).2
    (base_name (py "pdf.pdf")).
Proof.
  exists (hex uuid_of_zero ++ [dot]), []. vm_compute. reflexivity.
Qed.


(** ** [check_health_server] *)

(** C6.  [check_health_server] issues one GET to the route [/health] of
    the backend, with a timeout of 10 seconds.  It returns [True] exactly
    when a response came back with status 200; any other status gives
    [False], and so does any [requests.RequestException]: nothing is
    raised in either case. *)
Theorem check_health_server_spec (getenv : str → option str) (w : world)
    (tr : list event) :
  ∃ ans : result Response,
    (run w tr (check_health_server getenv)).1
      = tr ++ [Called (requests_get (BACKEND_URL getenv ++ py "/health") 10) ans] ∧
    (∀ resp, ans = Returns resp →
       (run w tr (check_health_server getenv)).2
         = Returns (bool_decide (status_code resp = 200%Z))) ∧
    (∀ e, ans = Raises e → is_RequestException e = true →
       (run w tr (check_health_server getenv)).2 = Returns false) ∧
    ((run w tr (check_health_server getenv)).2 = Returns true
     ↔ ∃ resp, ans = Returns resp ∧ status_code resp = 200%Z).
Proof.
  eexists. split; [reflexivity|]. cbn.
  destruct (w _ tr (requests_get _ _)) as [resp|e]; (split; [|split]).
  - intros ? [= <-]. f_equal. case_bool_decide as H.
    + by apply Z.eqb_eq.
    + by apply Z.eqb_neq.
  - discriminate.
  - split.
    + intros [= H]. apply Z.eqb_eq in H. by exists resp.
    + intros (? & [= <-] & H). f_equal. by apply Z.eqb_eq.
  - discriminate.
  - intros ? [= <-] He. by rewrite He.
  - split.
    + destruct (is_RequestException e); discriminate.
    + by intros (? & [=] & _).
Qed.

Example check_health_server_offline :
  (run (world_of offline) [] (check_health_server no_env)).2 = Returns false.
Proof. reflexivity. Qed.

Example check_health_server_503 :
  (run (world_of (replying {| status_code := 503; reason := py "Service Unavailable";
                              url := []; text := [];
                              json_ := inr (ValueError (py "Expecting value")) |})) []
     (check_health_server no_env)).2 = Returns false.
Proof. reflexivity. Qed.

(** ** The S3 client and [check_s3_access] *)

(** C4.  [check_s3_access] issues one [head_bucket] call on the bucket and
    always returns a pair, whatever the call does: [(True, "Acesso ao bucket
    OK.")] when it returns, and [False] with a message when it raises, the
    message depending on whether the exception is a [NoCredentialsError],
    an [EndpointConnectionError], a [ClientError] or any other one. *)
Theorem check_s3_access_total (getenv : str → option str) (py_str : value → str)
    (w : world) (tr : list event) :
  ∃ (ans : result unit) (b : bool) (msg : str),
    run w tr (check_s3_access getenv py_str)
      = (tr ++ [Called (head_bucket (BUCKET_NAME getenv)) ans], Returns (b, msg)) ∧
    match ans with
    | Returns _ => b = true ∧ msg = py "Acesso ao bucket OK."
    | Raises e =>
      b = false ∧
      match e with
      | NoCredentialsError _ => msg = py "Credenciais AWS ausentes."
      | EndpointConnectionError m =>
        ∃ endpoint, msg = py "Falha ao conectar no endpoint S3 (" ++ endpoint
                            ++ py "): " ++ m
      | ClientError err _ =>
        msg = py "ClientError ao acessar bucket: " ++ py_str (VDict (default ∅ err))
      | _ => msg = py "Erro inesperado no S3: " ++ str_of_exception e
      end
    end.
Proof.
  exists (w _ tr (head_bucket (BUCKET_NAME getenv))).
  unfold check_s3_access. cbn.
  destruct (w _ tr (head_bucket _)) as [[]|e].
  - by do 2 eexists.
  - destruct e; do 2 eexists; (split; [reflexivity|]); split; try done.
    by eexists.
Qed.

(** ** The query *)

Lemma nonempty_strip (s : str) : nonempty (strip s) = negb (forallb isspace s).
Proof.
  destruct (forallb isspace s) eqn:E.
  - apply strip_nil in E. by rewrite E.
  - destruct (strip s) eqn:E'; [|done].
    apply strip_nil in E'. congruence.
Qed.

Lemma blank_guard (s : str) :
  negb (nonempty s) || negb (nonempty (strip s)) = forallb isspace s.
Proof.
  rewrite nonempty_strip, negb_involutive.
  destruct s as [|c s]; [done|]. done.
Qed.

Section Payload.
Variables (pergunta : str) (k : Z) (namespace : option str) (documentos : option value).

Lemma payload_question :
  chat_payload pergunta k namespace documentos !! py "question"
  = Some (VStr (strip pergunta)).
Proof.
  unfold chat_payload.
  destruct documentos as [d|]; [destruct (truthy d)|];
    destruct namespace as [[|c n]|];
    repeat (rewrite lookup_insert_ne by key_neq);
    apply lookup_singleton_eq.
Qed.

Lemma payload_k :
  chat_payload pergunta k namespace documentos !! py "k" = Some (VInt k).
Proof.
  unfold chat_payload.
  destruct documentos as [d|]; [destruct (truthy d)|];
    destruct namespace as [[|c n]|];
    repeat (rewrite lookup_insert_ne by key_neq);
    apply lookup_insert_eq.
Qed.

Lemma payload_namespace v :
  chat_payload pergunta k namespace documentos !! py "namespace" = Some v
  ↔ ∃ n, namespace = Some n ∧ n ≠ [] ∧ v = VStr n.
Proof.
  unfold chat_payload.
  destruct documentos as [d|]; [destruct (truthy d)|];
    destruct namespace as [[|c n]|];
    repeat (rewrite lookup_insert_ne by key_neq);
    rewrite ?lookup_insert_eq, ?lookup_singleton_ne by key_neq;
    split; try done;
    try (intros (n' & [= <-] & Hn & _); done);
    try (intros (n' & [=] & _); done);
    try (intros [= <-]; by eexists);
    try (intros (n' & [= <-] & _ & ->); done).
Qed.

Lemma payload_documents v :
  chat_payload pergunta k namespace documentos !! py "documents" = Some v
  ↔ documentos = Some v ∧ truthy v = true.
Proof.
  unfold chat_payload.
  destruct documentos as [d|]; [destruct (truthy d) eqn:Hd|];
    destruct namespace as [[|c n]|];
    rewrite ?lookup_insert_eq;
    repeat (rewrite lookup_insert_ne by key_neq);
    rewrite ?lookup_singleton_ne by key_neq;
    split; try done;
    try (intros [[= <-] ?]; congruence);
    try (intros [= <-]; done);
    try (intros [[=] ?]; done).
Qed.

Lemma payload_keys key :
  is_Some (chat_payload pergunta k namespace documentos !! key) →
  key ∈ [py "question"; py "k"; py "namespace"; py "documents"].
Proof.
  unfold chat_payload.
  assert (Hbase : ∀ m : gmap str value,
    (is_Some (m !! key) → key ∈ [py "question"; py "k"; py "namespace"; py "documents"]) →
    ∀ k' v, k' ∈ [py "question"; py "k"; py "namespace"; py "documents"] →
    is_Some (<[k' := v]> m !! key) →
    key ∈ [py "question"; py "k"; py "namespace"; py "documents"]).
  { intros m Hm k' v Hk'. destruct (decide (k' = key)) as [<-|Hne]; [done|].
    by rewrite lookup_insert_ne. }
  assert (H0 : is_Some (({[py "question" := VStr (strip pergunta)]} : gmap str value) !! key) →
               key ∈ [py "question"; py "k"; py "namespace"; py "documents"]).
  { destruct (decide (py "question" = key)) as [<-|Hne].
    - intros _. apply elem_of_cons. by left.
    - rewrite lookup_singleton_ne by done. by intros [? ?]. }
  assert (H1 := Hbase _ H0 (py "k") (VInt k) ltac:(set_solver)).
  destruct documentos as [d|]; [destruct (truthy d)|];
    destruct namespace as [[|c n]|]; try done;
    repeat (first [exact H1 | apply Hbase; [|set_solver]]).
Qed.
End Payload.

Lemma error_reply_shape (m : str) :
  reply_shape (<[py "error" := VStr m]> {[py "ok" := VBool false]}).
Proof.
  exists false. split.
  - rewrite lookup_insert_ne by key_neq. apply lookup_singleton_eq.
  - split.
    + rewrite lookup_insert_ne by key_neq. apply lookup_singleton_ne. key_neq.
    + exists m. apply lookup_insert_eq.
Qed.

Lemma data_reply_shape (v : value) :
  reply_shape (<[py "data" := v]> {[py "ok" := VBool true]}).
Proof.
  exists true. split.
  - rewrite lookup_insert_ne by key_neq. apply lookup_singleton_eq.
  - split.
    + rewrite lookup_insert_eq. by eexists.
    + rewrite lookup_insert_ne by key_neq. apply lookup_singleton_ne. key_neq.
Qed.

Lemma except_shape e d :
  perguntar_backend_except e = Returns d → reply_shape d.
Proof.
  destruct e; simpl; try discriminate; intros [= <-]; apply error_reply_shape.
Qed.

Lemma except_returns e :
  is_RequestException e = true → ∃ d, perguntar_backend_except e = Returns d.
Proof. destruct e; simpl; try discriminate; intros _; by eexists. Qed.

Lemma raise_for_status_raises resp e :
  raise_for_status resp = Raises e → is_RequestException e = true.
Proof.
  unfold raise_for_status.
  repeat case_match; try discriminate; by intros [= <-].
Qed.

Lemma raise_for_status_passes resp :
  (status_code resp < 400 ∨ 600 ≤ status_code resp)%Z →
  raise_for_status resp = Returns tt.
Proof.
  intros H. unfold raise_for_status.
  destruct (Z.leb_spec 400 (status_code resp)), (Z.ltb_spec (status_code resp) 500),
    (Z.leb_spec 500 (status_code resp)), (Z.ltb_spec (status_code resp) 600);
    simpl; try reflexivity; lia.
Qed.

Lemma chat_reply_json resp v :
  raise_for_status resp = Returns tt → json resp = Returns v →
  chat_reply (Returns resp)
  = Returns (<[py "data" := v]> {[py "ok" := VBool true]}).
Proof. intros H1 H2. unfold chat_reply. by rewrite H1, H2. Qed.

Lemma chat_reply_not_json resp e :
  raise_for_status resp = Returns tt → json resp = Raises e →
  is_ValueError e = true →
  chat_reply (Returns resp)
  = Returns (<[py "data" := VDict {[py "raw" := VStr (text resp)]}]>
               {[py "ok" := VBool true]}).
Proof. intros H1 H2 H3. unfold chat_reply. by rewrite H1, H2, H3. Qed.

Lemma chat_reply_json_raises resp e :
  raise_for_status resp = Returns tt → json resp = Raises e →
  is_ValueError e = false →
  chat_reply (Returns resp) = perguntar_backend_except e.
Proof. intros H1 H2 H3. unfold chat_reply. by rewrite H1, H2, H3. Qed.

Lemma chat_reply_status resp e :
  raise_for_status resp = Raises e →
  chat_reply (Returns resp) = perguntar_backend_except e.
Proof. intros H1. unfold chat_reply. by rewrite H1. Qed.

Lemma chat_reply_shape r d : chat_reply r = Returns d → reply_shape d.
Proof.
  unfold chat_reply. destruct r as [resp|e]; [|apply except_shape].
  destruct (raise_for_status resp) as [[]|e]; [|apply except_shape].
  destruct (json resp) as [v|e].
  - intros [= <-]. apply data_reply_shape.
  - destruct (is_ValueError e); [|apply except_shape].
    intros [= <-]. apply data_reply_shape.
Qed.

Lemma chat_reply_returns r :
  (∀ e, r = Raises e → is_RequestException e = true) →
  (∀ resp e, r = Returns resp → json resp = Raises e →
             is_ValueError e = true ∨ is_RequestException e = true) →
  ∃ d, chat_reply r = Returns d.
Proof.
  intros H Hj. unfold chat_reply. destruct r as [resp|e].
  - destruct (raise_for_status resp) as [[]|e] eqn:E.
    + destruct (json resp) as [v|e] eqn:Ej; [by eexists|].
      destruct (is_ValueError e) eqn:Ev; [by eexists|].
      apply except_returns. destruct (Hj resp e eq_refl Ej); congruence.
    + apply except_returns. by eapply raise_for_status_raises.
  - apply except_returns. by apply H.
Qed.

Section Query.
Variable getenv : str → option str.
Variables (w : world) (tr : list event).
Variables (pergunta : str) (k : Z) (namespace : option str) (documentos : option value).

Lemma perguntar_backend_blank :
  forallb isspace pergunta = true →
  run w tr (perguntar_backend getenv pergunta k namespace documentos)
  = (tr, Returns (<[py "error" := VStr (py "Pergunta vazia.")]>
                    {[py "ok" := VBool false]})).
Proof.
  intros H. unfold perguntar_backend. rewrite blank_guard, H. reflexivity.
Qed.

Lemma perguntar_backend_sent :
  forallb isspace pergunta = false →
  run w tr (perguntar_backend getenv pergunta k namespace documentos)
  = let c := requests_post (BACKEND_URL getenv ++ py "/chat")
               (chat_payload pergunta k namespace documentos) 300 in
    (tr ++ [Called c (w _ tr c)], chat_reply (w _ tr c)).
Proof.
  intros H. unfold perguntar_backend. rewrite blank_guard, H. reflexivity.
Qed.

(** C9, as amended.  Whatever [perguntar_backend] returns is a dictionary
    with a boolean under [ok], with [data] and no [error] when it is true,
    and with an error message and no [data] when it is false.  It returns,
    and does not raise, whenever [requests.post] answers or raises a
    [RequestException] and [resp.json()], where it is reached, returns or
    raises a [ValueError] or a [RequestException]. *)
Theorem perguntar_backend_reply :
  (∀ d, (run w tr (perguntar_backend getenv pergunta k namespace documentos)).2
        = Returns d → reply_shape d) ∧
  ((∀ payload e,
      w _ tr (requests_post (BACKEND_URL getenv ++ py "/chat") payload 300) = Raises e →
      is_RequestException e = true) →
   (∀ payload resp e,
      w _ tr (requests_post (BACKEND_URL getenv ++ py "/chat") payload 300)
        = Returns resp →
      json resp = Raises e →
      is_ValueError e = true ∨ is_RequestException e = true) →
   ∃ d, (run w tr (perguntar_backend getenv pergunta k namespace documentos)).2
        = Returns d).
Proof.
  destruct (forallb isspace pergunta) eqn:Hq.
  - rewrite perguntar_backend_blank by done. cbn. split.
    + intros d [= <-]. apply error_reply_shape.
    + intros _ _. by eexists.
  - rewrite perguntar_backend_sent by done. cbn. split.
    + intros d. apply chat_reply_shape.
    + intros H Hj. apply chat_reply_returns; [apply H|apply Hj].
Qed.

(** C3.  For a question that is empty or made of whitespace only,
    [perguntar_backend] makes no call at all and returns a dictionary with
    [ok] false and an error message; for a question with a character that
    is not whitespace it posts the request to [/chat], the question in it
    stripped. *)
Theorem blank_question_not_sent :
  if forallb isspace pergunta then
    ∃ d m,
      run w tr (perguntar_backend getenv pergunta k namespace documentos)
        = (tr, Returns d) ∧
      d !! py "ok" = Some (VBool false) ∧ d !! py "error" = Some (VStr m)
  else
    ∃ payload ans,
      (run w tr (perguntar_backend getenv pergunta k namespace documentos)).1
        = tr ++ [Called (requests_post (BACKEND_URL getenv ++ py "/chat") payload 300) ans] ∧
      payload !! py "question" = Some (VStr (strip pergunta)).
Proof.
  destruct (forallb isspace pergunta) eqn:Hq.
  - rewrite perguntar_backend_blank by done. do 2 eexists. split; [done|]. split.
    + rewrite lookup_insert_ne by key_neq. apply lookup_singleton_eq.
    + apply lookup_insert_eq.
  - rewrite perguntar_backend_sent by done. cbn. do 2 eexists. split; [done|].
    apply payload_question.
Qed.

(** C1, as amended.  For a blank question nothing is posted.  Otherwise one
    payload is posted to [/chat], and its keys are among [question], [k],
    [namespace] and [documents]: [question] holds the stripped question and
    [k] the number; [namespace] is there exactly when a namespace that is
    not the empty text was given, and [documents] exactly when a documents
    value that Python takes for true (so not an empty list) was given. *)
Theorem chat_payload_contract :
  if forallb isspace pergunta then
    (run w tr (perguntar_backend getenv pergunta k namespace documentos)).1 = tr
  else
    ∃ payload ans,
      (run w tr (perguntar_backend getenv pergunta k namespace documentos)).1
        = tr ++ [Called (requests_post (BACKEND_URL getenv ++ py "/chat") payload 300) ans] ∧
      payload !! py "question" = Some (VStr (strip pergunta)) ∧
      payload !! py "k" = Some (VInt k) ∧
      (∀ v, payload !! py "namespace" = Some v
            ↔ ∃ n, namespace = Some n ∧ n ≠ [] ∧ v = VStr n) ∧
      (∀ v, payload !! py "documents" = Some v
            ↔ documentos = Some v ∧ truthy v = true) ∧
      (∀ key, is_Some (payload !! key) →
              key ∈ [py "question"; py "k"; py "namespace"; py "documents"]).
Proof.
  destruct (forallb isspace pergunta) eqn:Hq.
  - by rewrite perguntar_backend_blank.
  - rewrite perguntar_backend_sent by done. cbn. do 2 eexists. split; [done|].
    split; [apply payload_question|]. split; [apply payload_k|].
    split; [intros v; apply payload_namespace|].
    split; [intros v; apply payload_documents|].
    intros key. apply payload_keys.
Qed.

(** C2, as amended.  When the backend answers a question with a status that
    [raise_for_status] lets through and a body that is not valid JSON, so
    that [resp.json()] raises a [ValueError],
    [perguntar_backend] returns a success: [ok] is [True], [data] is the
    dictionary holding the text of the body under [raw], and there is no
    [error]. *)
Theorem malformed_json_is_kept_raw (resp : Response) (m : str) :
  forallb isspace pergunta = false →
  w _ tr (requests_post (BACKEND_URL getenv ++ py "/chat")
            (chat_payload pergunta k namespace documentos) 300) = Returns resp →
  (status_code resp < 400 ∨ 600 ≤ status_code resp)%Z →
  json resp = Raises (ValueError m) →
  ∃ d, (run w tr (perguntar_backend getenv pergunta k namespace documentos)).2
         = Returns d ∧
       d !! py "ok" = Some (VBool true) ∧
       d !! py "data" = Some (VDict {[py "raw" := VStr (text resp)]}) ∧
       d !! py "error" = None.
Proof.
  intros Hq Hw Hs Hj. rewrite perguntar_backend_sent by done.
  cbv beta iota zeta delta [snd]. rewrite Hw.
  rewrite (chat_reply_not_json resp _ (raise_for_status_passes resp Hs) Hj eq_refl).
  eexists. split; [done|]. split; [|split].
  - rewrite lookup_insert_ne by key_neq. apply lookup_singleton_eq.
  - apply lookup_insert_eq.
  - rewrite lookup_insert_ne by key_neq. apply lookup_singleton_ne. key_neq.
Qed.
End Query.

(** C1 as it is written fails: with an empty namespace and an empty list
    of documents given, the payload posted has neither key; and for a
    question that is one space no payload is posted at all. *)
Lemma empty_documents_are_left_out :
  ∃ payload ans,
    (run (world_of offline) []
       (perguntar_backend no_env (py "oi") 4 (Some []) (Some (VList [])))).1
      = [Called (requests_post (BACKEND_URL no_env ++ py "/chat") payload 300) ans] ∧
    payload !! py "namespace" = None ∧
    payload !! py "documents" = None ∧
    (run (world_of offline) [] (perguntar_backend no_env (py " ") 4 None None)).1 = [].
Proof.
  do 2 eexists. split; [reflexivity|]. repeat split; vm_compute; reflexivity.
Qed.

(** C2 as it is written fails: a reply with status 200 and the body
    [<html>] comes back as a success, not as an error. *)
Lemma malformed_json_is_reported_ok :
  ∃ d,
    (run (world_of (replying (ok_response (py "<html>") None))) []
       (perguntar_backend no_env (py "oi") 4 None None)).2 = Returns d ∧
    d !! py "ok" = Some (VBool true) ∧ d !! py "error" = None.
Proof.
  eexists. split; [reflexivity|]. split; vm_compute; reflexivity.
Qed.

Lemma malformed_json_is_kept_raw_witness :
  ∃ d,
    (run (world_of (replying (ok_response (py "<html>") None))) []
       (perguntar_backend no_env (py "oi") 4 None None)).2 = Returns d ∧
    d !! py "ok" = Some (VBool true) ∧
    d !! py "data" = Some (VDict {[py "raw" := VStr (py "<html>")]}) ∧
    d !! py "error" = None.
Proof.
  apply (malformed_json_is_kept_raw no_env
           (world_of (replying (ok_response (py "<html>") None))) []
           (py "oi") 4 None None (ok_response (py "<html>") None)
           (py "Expecting value: line 1 column 1 (char 0)")).
  - vm_compute. reflexivity.
  - reflexivity.
  - left. simpl. lia.
  - reflexivity.
Defined.

(** C9 as it is written fails: the backend answers with status 200 and a
    body nested so deep that [resp.json()] raises a [RecursionError], which
    no [except] clause of [perguntar_backend] catches. *)
Lemma perguntar_backend_can_raise :
  (run (world_of (replying nested_too_deep)) []
     (perguntar_backend no_env (py "oi") 4 None None)).2
  = Raises (OtherException
      (py "maximum recursion depth exceeded while decoding a JSON array from a unicode string")).
Proof. vm_compute. reflexivity. Qed.

Lemma perguntar_backend_reply_witness :
  ∃ d, (run (world_of (replying (ok_response (py "<html>") None))) []
          (perguntar_backend no_env (py "oi") 4 None None)).2
       = Returns d.
Proof.
  apply (proj2 (perguntar_backend_reply no_env
                  (world_of (replying (ok_response (py "<html>") None))) []
                  (py "oi") 4 None None)).
  - intros payload e [=].
  - intros payload resp e [= <-] [= <-]. by left.
Defined.

(** ** The answer *)

Lemma py_or_get d k rest :
  py_or (value_get (VDict d) k) rest
  = match d !! k with
    | Some v => if truthy v then Returns v else rest
    | None => rest
    end.
Proof.
  unfold py_or, value_get, dict_get. cbn.
  destruct (d !! k) as [v|]; cbn; [|done]. by destruct (truthy v).
Qed.

Lemma answer_chain d :
  py_or (value_get (VDict d) (py "answer"))
    (py_or (value_get (VDict d) (py "resposta"))
       (py_or (value_get (VDict d) (py "raw")) (Returns (VDict d))))
  = Returns (default (VDict d)
      (first_key truthy d [py "answer"; py "resposta"; py "raw"])).
Proof.
  rewrite !py_or_get. cbn [first_key].
  destruct (d !! py "answer") as [a|]; [destruct (truthy a); [done|]|];
    (destruct (d !! py "resposta") as [r|]; [destruct (truthy r); [done|]|]);
    (destruct (d !! py "raw") as [x|]; [destruct (truthy x)|]); done.
Qed.

Lemma fontes_chain d :
  ∃ f, py_or (value_get (VDict d) (py "sources")) (value_get (VDict d) (py "fontes"))
       = Returns f ∧
       match first_key truthy d [py "sources"; py "fontes"] with
       | Some f' => f = f' ∧ truthy f = true
       | None => truthy f = false
       end.
Proof.
  rewrite py_or_get. cbn [first_key value_get]. unfold dict_get.
  destruct (d !! py "sources") as [s|]; [destruct (truthy s) eqn:Hs; [by eexists|]|];
    (destruct (d !! py "fontes") as [f|]; [destruct (truthy f) eqn:Hf|]);
    eexists; (split; [reflexivity|]); done.
Qed.

(** C7, as amended.  When the reply is a success whose data is a JSON
    object, the page shows as the answer the value of the first of the
    keys [answer], [resposta], [raw] that is there and that Python takes
    for true (so neither [None], [False], zero nor empty), or the whole
    object when there is none; and it shows the sources, the value of the
    first such key among [sources] and [fontes], only when there is one. *)
Theorem mostrar_resposta_object (w : world) (tr : list event)
    (resposta : gmap str value) (ok : value) (d : gmap str value) :
  resposta !! py "ok" = Some ok → truthy ok = true →
  resposta !! py "data" = Some (VDict d) →
  let answer :=
    default (VDict d) (first_key truthy d [py "answer"; py "resposta"; py "raw"]) in
  ∃ shown,
    (shown = st_json answer ∨ shown = st_write answer) ∧
    run w tr (mostrar_resposta resposta)
    = (tr ++ [Called (st (st_markdown (py "### Resposta:"))) tt; Called (st shown) tt]
          ++ match first_key truthy d [py "sources"; py "fontes"] with
             | Some fontes => [Called (st (st_markdown (py "### Fontes:"))) tt;
                               Called (st (st_json fontes)) tt]
             | None => []
             end,
       Returns tt).
Proof.
  intros Hok Ht Hdata answer.
  unfold mostrar_resposta, dict_item. rewrite Hok, Ht, Hdata.
  rewrite answer_chain. fold answer.
  destruct (fontes_chain d) as (f & -> & Hf).
  exists (match answer with VDict _ | VList _ => st_json answer | _ => st_write answer end).
  split; [destruct answer; auto|].
  rewrite run_bind, run_perform_st. cbn [fst snd].
  rewrite run_bind.
  assert (Hshow : ∀ tr0,
    run w tr0 match answer with
              | VDict _ | VList _ => perform (st (st_json answer))
              | _ => perform (st (st_write answer))
              end
    = (tr0 ++ [Called (st match answer with
                           | VDict _ | VList _ => st_json answer
                           | _ => st_write answer
                           end) tt], tt)).
  { intros tr0. destruct answer; apply run_perform_st. }
  rewrite Hshow. cbn [fst snd]. rewrite run_bind.
  destruct (first_key truthy d [py "sources"; py "fontes"]) as [f'|].
  - destruct Hf as [<- ->]. rewrite run_bind, !run_perform_st. cbn.
    by rewrite <-!app_assoc.
  - rewrite Hf. cbn. by rewrite <-?app_assoc, ?app_nil_r.
Qed.

Lemma mostrar_resposta_object_witness :
  ∃ shown,
    (shown = st_json (VStr (py "42")) ∨ shown = st_write (VStr (py "42"))) ∧
    run (world_of offline) [] (mostrar_resposta answered)
    = ([] ++ [Called (st (st_markdown (py "### Resposta:"))) tt; Called (st shown) tt]
          ++ [Called (st (st_markdown (py "### Fontes:"))) tt;
              Called (st (st_json (VList [VStr (py "doc1")]))) tt],
       Returns tt).
Proof.
  pose proof (mostrar_resposta_object (world_of offline) [] answered (VBool true)
                (<[py "fontes" := VList [VStr (py "doc1")]]>
                   {[py "answer" := VStr (py "42")]})) as H.
  cbv zeta in H.
  specialize (H ltac:(vm_compute; reflexivity) eq_refl ltac:(vm_compute; reflexivity)).
  vm_compute in H. vm_compute. exact H.
Defined.

(** C7 as it is written fails twice.  A success whose data is a JSON array
    shows nothing: reading a key of it raises an [AttributeError].  And an
    answer of 0, which is there and is not empty, is passed over for the
    whole object. *)
Lemma mostrar_resposta_counterexample :
  run (world_of offline) []
    (mostrar_resposta (<[py "data" := VList []]> {[py "ok" := VBool true]}))
  = ([], Raises (AttributeError (py "'list' object has no attribute 'get'"))) ∧
  first_key is_nonempty {[py "answer" := VInt 0]}
    [py "answer"; py "resposta"; py "raw"] = Some (VInt 0) ∧
  run (world_of offline) []
    (mostrar_resposta (<[py "data" := VDict {[py "answer" := VInt 0]}]>
                         {[py "ok" := VBool true]}))
  = ([Called (st (st_markdown (py "### Resposta:"))) tt;
      Called (st (st_json (VDict {[py "answer" := VInt 0]}))) tt],
     Returns tt).
Proof.
  split; [|split]; vm_compute; reflexivity.
Qed.

(** The whole handler of the button "Enviar". *)
Lemma enviar_blank (getenv : str → option str) (json_loads : str → result value)
    (w : world) (tr : list event) (k : Z) (namespace : str) :
  run w tr (enviar getenv json_loads [] k namespace [])
  = (tr ++ widgets [st_spinner (py "Consultando os documentos...");
                    st_error (VStr (py "Pergunta vazia."))],
     Returns tt).
Proof.
  unfold enviar. change (nonempty (strip [])) with false. cbv iota.
  rewrite run_bind, run_ret. cbn [fst snd].
  rewrite run_bind, run_perform_st. cbn [fst snd].
  rewrite run_bind, perguntar_backend_blank by reflexivity. cbn [fst snd].
  unfold mostrar_resposta, dict_item.
  rewrite lookup_insert_ne by key_neq. rewrite lookup_singleton_eq. cbn [truthy].
  rewrite lookup_insert_eq, run_bind, run_perform_st. cbn [fst snd].
  by rewrite run_ret, <-app_assoc.
Qed.

Example enviar_array_reply (json_loads : str → result value) :
  (run (world_of (replying (ok_response (py "[]") (Some (VList []))))) []
     (enviar no_env json_loads (py "oi") 4 [] [])).2
  = Raises (AttributeError (py "'list' object has no attribute 'get'")).
Proof. vm_compute. reflexivity. Qed.

(** ** The upload *)

Lemma key_for_safe (w : world) tr nm :
  key_for (w _ tr uuid4) nm
    (PREFIX_BASE ++ py "/" ++ (run w tr (s3_safe_key nm)).2).
Proof.
  split.
  - intros H. by rewrite s3_safe_key_no_dot.
  - intros pre ext -> H. by rewrite s3_safe_key_ext.
Qed.

Lemma run_safe_key_bind {B} (w : world) tr nm (k : str → prog B) :
  run w tr (s3_safe_key nm ≫= k)
  = run w (tr ++ [Called uuid4 (w _ tr uuid4)]) (k (run w tr (s3_safe_key nm)).2).
Proof. reflexivity. Qed.

Lemma sent_keys_cons o os : sent_keys (o :: os) = sent_keys [o] ++ sent_keys os.
Proof. by destruct o. Qed.

Lemma failures_cons o os : failures (o :: os) = failures [o] ++ failures os.
Proof. by destruct o. Qed.

Lemma uuids_app es1 es2 : uuids (es1 ++ es2) = uuids es1 ++ uuids es2.
Proof. apply omap_app. Qed.

Lemma sought_app es1 es2 : sought (es1 ++ es2) = sought es1 ++ sought es2.
Proof. apply omap_app. Qed.

Lemma uploaded_app es1 es2 : uploaded (es1 ++ es2) = uploaded es1 ++ uploaded es2.
Proof. apply omap_app. Qed.

Lemma recorded_mono getenv py_str es es' f uo :
  es ⊆ es' → recorded getenv py_str es f uo → recorded getenv py_str es' f uo.
Proof.
  intros Hsub [key [Hkey H]]. exists key. split; [done|].
  destruct uo.2 as [sent|[n r]].
  - destruct H as (? & ? & ?). split; [done|]. split; by apply Hsub.
  - destruct H as [-> (e & -> & H)]. split; [done|]. exists e. split; [done|].
    destruct H as [H|[H1 H2]]; [left|right; split]; by apply Hsub.
Qed.

Lemma uuids_widgets ls : uuids (widgets ls) = [].
Proof. induction ls as [|c ls IH]; [done|]. exact IH. Qed.

Lemma sought_widgets ls : sought (widgets ls) = [].
Proof. induction ls as [|c ls IH]; [done|]. exact IH. Qed.

Lemma uploaded_widgets ls : uploaded (widgets ls) = [].
Proof. induction ls as [|c ls IH]; [done|]. exact IH. Qed.

Lemma write_lines_run (w : world) tr lines :
  run w tr (write_lines lines) = (tr ++ widgets ((λ l, st_write (VStr l)) <$> lines), tt).
Proof.
  revert tr. induction lines as [|l lines IH]; intros tr.
  - cbn. by rewrite app_nil_r.
  - cbn [write_lines]. rewrite run_bind, run_perform_st. cbn [fst snd].
    rewrite IH. by rewrite <-app_assoc.
Qed.

Lemma summary_run (w : world) (nothing : bool) (head : st_call) lines :
  ∃ ls, ∀ tr,
    run w tr (if nothing then mret tt
              else perform (st head);; write_lines lines)
    = (tr ++ widgets ls, tt).
Proof.
  destruct nothing.
  - exists []. intros tr. cbn. by rewrite app_nil_r.
  - eexists (_ :: _). intros tr. rewrite run_bind, run_perform_st. cbn [fst snd].
    rewrite write_lines_run, <-app_assoc. reflexivity.
Qed.

Section Upload.
Variable getenv : str → option str.
Variable py_str : value → str.
Variable w : world.

Lemma upload_one_spec tr f env fal :
  ∃ (u : UUID) (o : outcome) (es : list event),
    run w tr (upload_one getenv py_str f (env, fal))
      = (tr ++ es, (env ++ sent_keys [o], fal ++ failures [o])) ∧
    uuids es = [u] ∧ sought es = [f] ∧ uploaded es `sublist_of` [f] ∧
    recorded getenv py_str es f (u, o).
Proof.
  unfold upload_one.
  rewrite run_bind, run_perform_st. cbn [fst snd].
  rewrite run_bind, run_perform_st. cbn [fst snd].
  set (tr0 := (tr ++ _) ++ _).
  rewrite run_safe_key_bind.
  pose proof (key_for_safe w tr0 (name f)) as Hkey.
  set (key := PREFIX_BASE ++ py "/" ++ (run w tr0 (s3_safe_key (name f))).2) in *.
  set (u := w _ tr0 uuid4) in *.
  rewrite run_bind. rewrite (run_bind w (perform (seek f 0))).
  rewrite run_perform. cbn [fst snd].
  set (tr1 := tr0 ++ _).
  destruct (w _ tr1 (seek f 0)) as [[]|e] eqn:Hseek.
  - rewrite run_perform. cbn [fst snd].
    set (tr2 := (tr1 ++ _)).
    destruct (w _ tr2 (upload_fileobj _ _ _ _)) as [[]|e] eqn:Hup.
    + exists u, (inl key).
      rewrite run_bind, run_perform_st. cbn [fst snd].
      rewrite run_bind, run_perform_st. cbn [fst snd].
      rewrite run_bind, run_perform_st. cbn [fst snd]. rewrite run_ret.
      eexists. split.
      { subst tr2 tr1 tr0. rewrite <-!app_assoc. cbn.
        by rewrite ?(app_nil_r fal), ?(app_nil_r env). }
      split; [reflexivity|]. split; [reflexivity|]. split; [reflexivity|].
      exists key. split; [exact Hkey|]. cbn [snd]. split; [done|].
      split; set_solver.
    + exists u, (inr (name f, (upload_except py_str f e).1)).
      rewrite run_bind, run_perform_st. cbn [fst snd].
      rewrite run_bind, run_perform_st. cbn [fst snd].
      rewrite run_bind, run_perform_st. cbn [fst snd]. rewrite run_ret.
      eexists. split.
      { subst tr2 tr1 tr0. rewrite <-!app_assoc. cbn.
        by rewrite ?(app_nil_r fal), ?(app_nil_r env). }
      split; [reflexivity|]. split; [reflexivity|]. split; [reflexivity|].
      exists key. split; [exact Hkey|]. cbn [snd]. split; [done|].
      exists e. split; [done|]. right. split; set_solver.
  - rewrite run_ret. cbn [fst snd].
    exists u, (inr (name f, (upload_except py_str f e).1)).
    rewrite run_bind, run_perform_st. cbn [fst snd].
    rewrite run_bind, run_perform_st. cbn [fst snd].
    rewrite run_bind, run_perform_st. cbn [fst snd]. rewrite run_ret.
    eexists. split.
    { subst tr1 tr0. rewrite <-!app_assoc. cbn.
      by rewrite ?(app_nil_r fal), ?(app_nil_r env). }
    split; [reflexivity|]. split; [reflexivity|].
    split; [apply sublist_nil_l|].
    exists key. split; [exact Hkey|]. cbn [snd]. split; [done|].
    exists e. split; [done|]. left. set_solver.
Qed.

Lemma upload_loop_spec files : ∀ tr env fal,
  ∃ (uos : list (UUID * outcome)) (es : list event),
    run w tr (upload_loop getenv py_str files (env, fal))
      = (tr ++ es, (env ++ sent_keys uos.*2, fal ++ failures uos.*2)) ∧
    uuids es = uos.*1 ∧ sought es = files ∧ uploaded es `sublist_of` files ∧
    Forall2 (recorded getenv py_str es) files uos.
Proof.
  induction files as [|f files IH]; intros tr env fal.
  - exists [], []. cbn. by rewrite !app_nil_r.
  - cbn [upload_loop]. rewrite run_bind.
    destruct (upload_one_spec tr f env fal)
      as (u & o & es1 & -> & Hu & Hs & Hup & Ho).
    cbn [fst snd].
    destruct (IH (tr ++ es1) (env ++ sent_keys [o]) (fal ++ failures [o]))
      as (uos & es2 & -> & Hu2 & Hs2 & Hup2 & Hall).
    exists ((u, o) :: uos), (es1 ++ es2). split; [|split; [|split; [|split]]].
    + cbn [fmap list_fmap snd].
      rewrite (sent_keys_cons o uos.*2), (failures_cons o uos.*2).
      by rewrite <-!app_assoc.
    + rewrite uuids_app, Hu, Hu2. done.
    + rewrite sought_app, Hs, Hs2. done.
    + rewrite uploaded_app. by apply (sublist_app _ [f]).
    + constructor.
      * eapply recorded_mono; [|exact Ho]. set_solver.
      * eapply Forall2_impl; [exact Hall|]. intros f' uo.
        apply recorded_mono. set_solver.
Qed.

(** What the handler does with any selection, empty or not. *)
Lemma enviar_para_s3_spec tr files :
  ∃ (uos : list (UUID * outcome)) (es : list event),
    run w tr (enviar_para_s3 getenv py_str files)
      = (tr ++ es, (sent_keys uos.*2, failures uos.*2)) ∧
    uuids es = uos.*1 ∧ sought es = files ∧ uploaded es `sublist_of` files ∧
    Forall2 (recorded getenv py_str es) files uos.
Proof.
  destruct files as [|f files].
  { exists [], (widgets [st_warning (py "Nenhum arquivo selecionado.")]).
    unfold enviar_para_s3. rewrite run_bind, run_perform_st. cbn [fst snd].
    rewrite run_ret. repeat split; constructor. }
  unfold enviar_para_s3. rewrite run_bind.
  destruct (upload_loop_spec (f :: files) tr [] [])
    as (uos & es & -> & Hu & Hs & Hup & Hall).
  cbn [fst snd app]. set (files' := f :: files) in *. clearbody files'.
  set (enviados := sent_keys uos.*2). set (falhas := failures uos.*2).
  destruct (summary_run w (bool_decide (enviados = []))
              (st_info (py "Arquivos enviados com sucesso:"))
              ((λ k_, py "- s3://" ++ BUCKET_NAME getenv ++ py "/" ++ k_) <$> enviados))
    as [ls1 Hsum1].
  destruct (summary_run w (bool_decide (falhas = []))
              (st_warning (py "Falhas:"))
              ((λ nm, py "- " ++ nm.1 ++ py ": " ++ nm.2) <$> falhas))
    as [ls2 Hsum2].
  rewrite run_bind, Hsum1. cbn [fst snd]. rewrite run_bind, Hsum2. cbn [fst snd].
  rewrite run_ret.
  exists uos, (es ++ widgets ls1 ++ widgets ls2). split; [|split; [|split; [|split]]].
  - by rewrite <-!app_assoc.
  - by rewrite !uuids_app, !uuids_widgets, !app_nil_r.
  - by rewrite !sought_app, !sought_widgets, !app_nil_r.
  - by rewrite !uploaded_app, !uploaded_widgets, !app_nil_r.
  - eapply Forall2_impl; [exact Hall|]. intros f' uo.
    apply recorded_mono. set_solver.
Qed.

(** C5.  For a list of files that is not empty, the handler goes through
    every file, in order, whether or not the ones before it failed.  For
    each it draws one UUID, makes the key [uploads/<digits of the
    UUID><extension>], and attempts the upload once: it calls [f.seek(0)]
    and, when that returns, [upload_fileobj] with the bucket and the key.
    Every file ends in exactly one of the two lists: its key in [enviados]
    when both calls returned; or its name in [falhas], with the reason the
    [except] clauses give for the exception that was raised. *)
Theorem every_file_is_recorded (tr : list event) (files : list UploadedFile) :
  files ≠ [] →
  ∃ (uos : list (UUID * outcome)) (es : list event),
    run w tr (enviar_para_s3 getenv py_str files)
      = (tr ++ es, (sent_keys uos.*2, failures uos.*2)) ∧
    uuids es = uos.*1 ∧ sought es = files ∧ uploaded es `sublist_of` files ∧
    Forall2 (recorded getenv py_str es) files uos.
Proof. intros _. apply enviar_para_s3_spec. Qed.
End Upload.

Example upload_two_files :
  (run (world_of picky) [] (enviar_para_s3 no_env str_plain two_files)).2
  = ([py "uploads/00000000000000000000000000000002.pdf"],
     [(py "x.pdf", py "AccessDenied - Access Denied")]).
Proof. vm_compute. reflexivity. Qed.

Lemma every_file_is_recorded_witness :
  two_files ≠ [] ∧
  ∃ (uos : list (UUID * outcome)) (es : list event),
    run (world_of picky) [] (enviar_para_s3 no_env str_plain two_files)
      = ([] ++ es, (sent_keys uos.*2, failures uos.*2)) ∧
    uuids es = uos.*1 ∧ sought es = two_files ∧
    uploaded es `sublist_of` two_files ∧
    Forall2 (recorded no_env str_plain es) two_files uos.
Proof.
  split; [discriminate|].
  apply (every_file_is_recorded no_env str_plain (world_of picky) [] two_files).
  discriminate.
Defined.

(** ** Further properties of the script *)

Lemma starts_clean_lstrip s : starts_clean (lstrip s).
Proof.
  intros c H. destruct (lstrip s) as [|a t] eqn:E; [done|].
  injection H as ->. by eapply lstrip_head.
Qed.

Lemma lstrip_clean s : starts_clean s → lstrip s = s.
Proof.
  destruct s as [|c t]; [done|]. intros H. cbn. by rewrite (H c).
Qed.

Lemma lstrip_spaces s : ∃ sp, s = sp ++ lstrip s.
Proof.
  induction s as [|c s [sp IH]]; [by exists []|].
  cbn. destruct (isspace c).
  - exists (c :: sp). cbn. by rewrite <-IH.
  - by exists [].
Qed.

Lemma rstrip_prefix s : ∃ sp, s = rstrip s ++ sp.
Proof.
  unfold rstrip. destruct (lstrip_spaces (reverse s)) as [sp H].
  exists (reverse sp). rewrite <-reverse_app, <-H. by rewrite reverse_involutive.
Qed.

Lemma starts_clean_rstrip s : starts_clean s → starts_clean (rstrip s).
Proof.
  intros H c Hc. destruct (rstrip_prefix s) as [sp E].
  apply H. rewrite E. by destruct (rstrip s).
Qed.

Lemma ends_clean_rstrip s : ends_clean (rstrip s).
Proof.
  intros c H. unfold rstrip in H. rewrite last_reverse in H.
  by apply (starts_clean_lstrip (reverse s)).
Qed.

Lemma rstrip_clean s : ends_clean s → rstrip s = s.
Proof.
  intros H. unfold rstrip. rewrite lstrip_clean.
  - apply reverse_involutive.
  - intros c Hc. apply H. by rewrite <-head_reverse.
Qed.

Lemma starts_clean_strip s : starts_clean (strip s).
Proof. apply starts_clean_rstrip, starts_clean_lstrip. Qed.

Lemma ends_clean_strip s : ends_clean (strip s).
Proof. apply ends_clean_rstrip. Qed.

Lemma strip_idem s : strip (strip s) = strip s.
Proof.
  unfold strip at 1. rewrite (lstrip_clean (strip s)) by apply starts_clean_strip.
  apply rstrip_clean, ends_clean_strip.
Qed.

Lemma isspace_strip s : forallb isspace (strip s) = forallb isspace s.
Proof.
  destruct (forallb isspace s) eqn:E.
  - apply strip_nil in E. by rewrite E.
  - destruct (forallb isspace (strip s)) eqn:E'; [|done].
    apply strip_nil in E'. rewrite strip_idem in E'. apply strip_nil in E'. congruence.
Qed.

Lemma chat_payload_strip q k ns docs :
  chat_payload (strip q) k ns docs = chat_payload q k ns docs.
Proof. unfold chat_payload. by rewrite strip_idem. Qed.

Lemma raise_for_status_fails resp :
  (400 ≤ status_code resp < 600)%Z →
  ∃ m, raise_for_status resp = Raises (HTTPError (Some resp) m).
Proof.
  intros H. unfold raise_for_status.
  destruct (Z.leb_spec 400 (status_code resp)), (Z.ltb_spec (status_code resp) 500),
    (Z.leb_spec 500 (status_code resp)), (Z.ltb_spec (status_code resp) 600);
    cbn; try lia; by eexists.
Qed.

Lemma error_reply_lookup (m : str) :
  let d : gmap str value := <[py "error" := VStr m]> {[py "ok" := VBool false]} in
  d !! py "ok" = Some (VBool false) ∧ d !! py "error" = Some (VStr m) ∧
  d !! py "data" = None.
Proof.
  cbv zeta. split; [|split].
  - rewrite lookup_insert_ne by key_neq. apply lookup_singleton_eq.
  - apply lookup_insert_eq.
  - rewrite lookup_insert_ne by key_neq. apply lookup_singleton_ne. key_neq.
Qed.

Section QueryMore.
Variable getenv : str → option str.
Variables (w : world) (tr : list event).
Variables (pergunta : str) (k : Z) (namespace : option str) (documentos : option value).

(** X1.  Whitespace around the question does not matter: two questions
    that are equal once stripped make [perguntar_backend] do the same calls
    and return the same reply, in every world and with the same [k],
    namespace and documents. *)
Theorem question_whitespace_is_ignored (pergunta' : str) :
  strip pergunta' = strip pergunta →
  run w tr (perguntar_backend getenv pergunta' k namespace documentos)
  = run w tr (perguntar_backend getenv pergunta k namespace documentos).
Proof.
  intros H.
  assert (Hsp : forallb isspace pergunta' = forallb isspace pergunta).
  { by rewrite <-(isspace_strip pergunta'), H, isspace_strip. }
  assert (Hp : chat_payload pergunta' k namespace documentos
               = chat_payload pergunta k namespace documentos).
  { by rewrite <-(chat_payload_strip pergunta'), H, chat_payload_strip. }
  destruct (forallb isspace pergunta) eqn:E.
  - by rewrite !perguntar_backend_blank.
  - rewrite !perguntar_backend_sent by done. by rewrite Hp.
Qed.

(** X2.  Whatever [perguntar_backend] posts carries, under [question], a
    text that is not empty and has no whitespace at its start or at its
    end. *)
Theorem question_sent_is_trimmed (url : str) (payload : gmap str value) (timeout : Z) :
  (url, payload, timeout)
    ∈ posts (run w [] (perguntar_backend getenv pergunta k namespace documentos)).1 →
  ∃ q, payload !! py "question" = Some (VStr q) ∧ q ≠ [] ∧
       starts_clean q ∧ ends_clean q.
Proof.
  destruct (forallb isspace pergunta) eqn:E.
  - rewrite perguntar_backend_blank by done. cbn. by intros ?%elem_of_nil.
  - rewrite perguntar_backend_sent by done. cbn.
    intros [= _ -> _]%list_elem_of_singleton.
    exists (strip pergunta). split; [apply payload_question|].
    split; [|split; [apply starts_clean_strip|apply ends_clean_strip]].
    intros Hn. apply strip_nil in Hn. congruence.
Qed.

End QueryMore.

Lemma question_whitespace_is_ignored_witness :
  strip (py "  oi ") = strip (py "oi") ∧
  run (world_of offline) [] (perguntar_backend no_env (py "  oi ") 4 None None)
  = run (world_of offline) [] (perguntar_backend no_env (py "oi") 4 None None).
Proof.
  split; [vm_compute; reflexivity|].
  apply (question_whitespace_is_ignored no_env (world_of offline) [] (py "oi") 4
           None None (py "  oi ")).
  vm_compute. reflexivity.
Defined.

Lemma question_sent_is_trimmed_witness :
  ∃ q, chat_payload (py " oi ") 4 None None !! py "question" = Some (VStr q) ∧
       q ≠ [] ∧ starts_clean q ∧ ends_clean q.
Proof.
  apply (question_sent_is_trimmed no_env (world_of offline) (py " oi ") 4 None None
           (BACKEND_URL no_env ++ py "/chat") (chat_payload (py " oi ") 4 None None) 300).
  rewrite perguntar_backend_sent by (vm_compute; reflexivity).
  cbn. apply list_elem_of_singleton. reflexivity.
Defined.

Section QueryErrors.
Variable getenv : str → option str.
Variables (w : world) (tr : list event).
Variables (pergunta : str) (k : Z) (namespace : option str) (documentos : option value).

(** X3.  When the backend answers a question that is not blank with a
    status from 400 to 599, [perguntar_backend] returns [ok] false with
    the error [HTTP <status>: <body of the reply>] and no [data]. *)
Theorem http_error_is_reported (resp : Response) :
  forallb isspace pergunta = false →
  w _ tr (requests_post (BACKEND_URL getenv ++ py "/chat")
            (chat_payload pergunta k namespace documentos) 300) = Returns resp →
  (400 ≤ status_code resp < 600)%Z →
  ∃ d, (run w tr (perguntar_backend getenv pergunta k namespace documentos)).2
         = Returns d ∧
       d !! py "ok" = Some (VBool false) ∧
       d !! py "error"
         = Some (VStr (py "HTTP " ++ str_of_Z (status_code resp) ++ py ": " ++ text resp)) ∧
       d !! py "data" = None.
Proof.
  intros Hq Hw Hs. rewrite perguntar_backend_sent by done.
  cbv beta iota zeta delta [snd]. rewrite Hw. unfold chat_reply.
  destruct (raise_for_status_fails resp Hs) as [m ->].
  eexists. split; [reflexivity|]. apply error_reply_lookup.
Qed.

(** X4.  When the POST of a question that is not blank raises a
    [requests.RequestException], [perguntar_backend] returns [ok] false and
    no [data]; the error is [HTTP <status>: <body>] for an [HTTPError] that
    carries a response, [HTTP ?: <message>] for one that carries none, and
    [Falha de conexão com o backend: <message>] for any other one. *)
Theorem request_failure_is_reported (e : exception) :
  forallb isspace pergunta = false →
  w _ tr (requests_post (BACKEND_URL getenv ++ py "/chat")
            (chat_payload pergunta k namespace documentos) 300) = Raises e →
  is_RequestException e = true →
  ∃ d, (run w tr (perguntar_backend getenv pergunta k namespace documentos)).2
         = Returns d ∧
       d !! py "ok" = Some (VBool false) ∧
       d !! py "error"
         = Some (VStr match e with
                      | HTTPError (Some r) _ =>
                        py "HTTP " ++ str_of_Z (status_code r) ++ py ": " ++ text r
                      | HTTPError None m => py "HTTP ?: " ++ m
                      | _ => py "Falha de conexão com o backend: " ++ str_of_exception e
                      end) ∧
       d !! py "data" = None.
Proof.
  intros Hq Hw He. rewrite perguntar_backend_sent by done.
  cbv beta iota zeta delta [snd]. rewrite Hw. unfold chat_reply.
  destruct e as [| | | [r|] m | m | | | |]; try discriminate He;
    (eexists; split; [reflexivity|]); apply error_reply_lookup.
Qed.

(** X5.  When the backend answers a question that is not blank with a
    status outside 400..599 and a body that decodes as JSON, the decoded
    value, whatever its type, is returned under [data] with [ok] true and
    no [error]. *)
Theorem json_reply_is_passed_on (resp : Response) (v : value) :
  forallb isspace pergunta = false →
  w _ tr (requests_post (BACKEND_URL getenv ++ py "/chat")
            (chat_payload pergunta k namespace documentos) 300) = Returns resp →
  (status_code resp < 400 ∨ 600 ≤ status_code resp)%Z →
  json resp = Returns v →
  ∃ d, (run w tr (perguntar_backend getenv pergunta k namespace documentos)).2
         = Returns d ∧
       d !! py "ok" = Some (VBool true) ∧ d !! py "data" = Some v ∧
       d !! py "error" = None.
Proof.
  intros Hq Hw Hs Hj. rewrite perguntar_backend_sent by done.
  cbv beta iota zeta delta [snd]. rewrite Hw.
  rewrite (chat_reply_json resp v (raise_for_status_passes resp Hs) Hj).
  eexists. split; [reflexivity|]. split; [|split].
  - rewrite lookup_insert_ne by key_neq. apply lookup_singleton_eq.
  - apply lookup_insert_eq.
  - rewrite lookup_insert_ne by key_neq. apply lookup_singleton_ne. key_neq.
Qed.

(** X6.  [perguntar_backend] raises [e] exactly when the question is not
    blank, [e] is not a [requests.RequestException], and either the POST
    raised [e], or the POST answered with a status outside 400..599 and
    [resp.json()] raised [e], which is not a [ValueError] either.  Nothing
    else escapes it. *)
Theorem perguntar_backend_raises_iff (e : exception) :
  (run w tr (perguntar_backend getenv pergunta k namespace documentos)).2 = Raises e
  ↔ forallb isspace pergunta = false ∧
    is_RequestException e = false ∧
    (w _ tr (requests_post (BACKEND_URL getenv ++ py "/chat")
               (chat_payload pergunta k namespace documentos) 300) = Raises e ∨
     ∃ resp,
       w _ tr (requests_post (BACKEND_URL getenv ++ py "/chat")
                 (chat_payload pergunta k namespace documentos) 300) = Returns resp ∧
       (status_code resp < 400 ∨ 600 ≤ status_code resp)%Z ∧
       json resp = Raises e ∧ is_ValueError e = false).
Proof.
  assert (Hex : ∀ e0, perguntar_backend_except e0 = Raises e
                      ↔ e0 = e ∧ is_RequestException e = false).
  { intros e0. split.
    - destruct e0; cbn; try discriminate; intros [= <-]; done.
    - intros [-> He]. destruct e; try discriminate He; done. }
  destruct (forallb isspace pergunta) eqn:Hq.
  - rewrite perguntar_backend_blank by done. cbn. split; [done|]. by intros [? _].
  - rewrite perguntar_backend_sent by done. cbv beta iota zeta delta [snd].
    destruct (w _ tr (requests_post _ _ _)) as [resp|e0].
    + destruct (raise_for_status resp) as [[]|e1] eqn:E.
      * assert (Hs : (status_code resp < 400 ∨ 600 ≤ status_code resp)%Z).
        { destruct (decide (400 ≤ status_code resp < 600)%Z) as [Hin|Hout]; [|lia].
          destruct (raise_for_status_fails resp Hin) as [m Hm]. congruence. }
        destruct (json resp) as [v|e2] eqn:Ej.
        { rewrite (chat_reply_json resp v E Ej). split; [done|].
          intros (_ & _ & [[=]|(resp' & [= <-] & _ & Hj & _)]). congruence. }
        destruct (is_ValueError e2) eqn:Ev.
        { rewrite (chat_reply_not_json resp e2 E Ej Ev). split; [done|].
          intros (_ & _ & [[=]|(resp' & [= <-] & _ & Hj & ?)]). congruence. }
        rewrite (chat_reply_json_raises resp e2 E Ej Ev), Hex. split.
        { intros [-> He]. split; [done|]. split; [done|]. right. by exists resp. }
        intros (_ & He & [[=]|(resp' & [= <-] & _ & Hj & _)]).
        split; [congruence|done].
      * rewrite (chat_reply_status resp e1 E), Hex. split.
        { intros [-> He]. apply raise_for_status_raises in E. congruence. }
        intros (_ & He & [[=]|(resp' & [= <-] & Hs' & _)]).
        rewrite raise_for_status_passes in E by done. discriminate E.
    + cbn [chat_reply]. rewrite Hex. split.
      * intros [-> He]. split; [done|]. split; [done|]. by left.
      * intros (_ & He & [[= ->]|(resp' & [=] & _)]). done.
Qed.
End QueryErrors.

Lemma http_error_is_reported_witness :
  ∃ d, (run (world_of (replying unavailable)) []
          (perguntar_backend no_env (py "oi") 4 None None)).2 = Returns d ∧
       d !! py "ok" = Some (VBool false) ∧
       d !! py "error" = Some (VStr (py "HTTP 503: upstream down")) ∧
       d !! py "data" = None.
Proof.
  apply (http_error_is_reported no_env (world_of (replying unavailable)) []
           (py "oi") 4 None None unavailable).
  - vm_compute. reflexivity.
  - reflexivity.
  - cbn. lia.
Defined.

Lemma request_failure_is_reported_witness :
  ∃ d, (run (world_of offline) []
          (perguntar_backend no_env (py "oi") 4 None None)).2 = Returns d ∧
       d !! py "ok" = Some (VBool false) ∧
       d !! py "error"
         = Some (VStr (py "Falha de conexão com o backend: " ++ py "Connection refused")) ∧
       d !! py "data" = None.
Proof.
  apply (request_failure_is_reported no_env (world_of offline) [] (py "oi") 4 None None
           (RequestException (py "Connection refused"))).
  - vm_compute. reflexivity.
  - reflexivity.
  - reflexivity.
Defined.

Lemma json_reply_is_passed_on_witness :
  ∃ d, (run (world_of (replying (ok_response (py "[]") (Some (VList []))))) []
          (perguntar_backend no_env (py "oi") 4 None None)).2 = Returns d ∧
       d !! py "ok" = Some (VBool true) ∧ d !! py "data" = Some (VList []) ∧
       d !! py "error" = None.
Proof.
  apply (json_reply_is_passed_on no_env
           (world_of (replying (ok_response (py "[]") (Some (VList []))))) []
           (py "oi") 4 None None (ok_response (py "[]") (Some (VList []))) (VList [])).
  - vm_compute. reflexivity.
  - reflexivity.
  - left. cbn. lia.
  - reflexivity.
Defined.

Lemma posts_app tr1 tr2 : posts (tr1 ++ tr2) = posts tr1 ++ posts tr2.
Proof. apply omap_app. Qed.

Lemma shown_app tr1 tr2 : shown (tr1 ++ tr2) = shown tr1 ++ shown tr2.
Proof. apply omap_app. Qed.

Lemma shown_widgets ls : shown (widgets ls) = ls.
Proof. induction ls as [|c ls IH]; [done|]. cbn. f_equal. exact IH. Qed.

Lemma posts_widgets ls : posts (widgets ls) = [].
Proof. induction ls as [|c ls IH]; [done|]. exact IH. Qed.

(** The run of [mostrar_resposta] on a reply whose data is a dictionary. *)
Lemma mostrar_resposta_dict_run (w : world) (tr : list event)
    (resposta : gmap str value) (ok : value) (d : gmap str value) :
  resposta !! py "ok" = Some ok → truthy ok = true →
  resposta !! py "data" = Some (VDict d) →
  let answer :=
    default (VDict d) (first_key truthy d [py "answer"; py "resposta"; py "raw"]) in
  run w tr (mostrar_resposta resposta)
  = (tr ++ widgets
       ([st_markdown (py "### Resposta:");
         match answer with
         | VDict _ | VList _ => st_json answer
         | _ => st_write answer
         end]
        ++ match first_key truthy d [py "sources"; py "fontes"] with
           | Some fontes => [st_markdown (py "### Fontes:"); st_json fontes]
           | None => []
           end),
     Returns tt).
Proof.
  intros Hok Ht Hdata answer.
  unfold mostrar_resposta, dict_item. rewrite Hok, Ht, Hdata.
  rewrite answer_chain. fold answer.
  destruct (fontes_chain d) as (f & -> & Hf).
  rewrite run_bind, run_perform_st. cbn [fst snd].
  rewrite run_bind.
  assert (Hshow : ∀ tr0,
    run w tr0 match answer with
              | VDict _ | VList _ => perform (st (st_json answer))
              | _ => perform (st (st_write answer))
              end
    = (tr0 ++ [Called (st match answer with
                           | VDict _ | VList _ => st_json answer
                           | _ => st_write answer
                           end) tt], tt)).
  { intros tr0. destruct answer; apply run_perform_st. }
  rewrite Hshow. cbn [fst snd]. rewrite run_bind.
  destruct (first_key truthy d [py "sources"; py "fontes"]) as [f'|].
  - destruct Hf as [<- ->]. rewrite run_bind, !run_perform_st. cbn [fst snd].
    rewrite run_ret. by rewrite <-!app_assoc.
  - rewrite Hf, !run_ret. cbn [fst snd]. by rewrite <-!app_assoc.
Qed.

(** The run of [mostrar_resposta] on a reply that is an error. *)
Lemma mostrar_resposta_error_run (w : world) (tr : list event)
    (resposta : gmap str value) (msg : value) :
  resposta !! py "ok" = Some (VBool false) →
  resposta !! py "error" = Some msg →
  run w tr (mostrar_resposta resposta) = (tr ++ widgets [st_error msg], Returns tt).
Proof.
  intros Hok He. unfold mostrar_resposta, dict_item. rewrite Hok. cbn [truthy].
  rewrite He, run_bind, run_perform_st. cbn [fst snd]. by rewrite run_ret.
Qed.

(** X7.  Shown a reply of the shape [perguntar_backend] returns, the page
    either finishes, the reply being an error or holding [data] that is an
    object; or the reply is a success whose [data] is not an object, and
    the page raises [AttributeError: '<type>' object has no attribute
    'get'] before it has drawn anything. *)
Theorem mostrar_resposta_needs_object (w : world) (tr : list event)
    (resposta : gmap str value) :
  reply_shape resposta →
  ((run w tr (mostrar_resposta resposta)).2 = Returns tt ∧
   (resposta !! py "ok" = Some (VBool false) ∨
    ∃ d, resposta !! py "data" = Some (VDict d))) ∨
  ∃ v, resposta !! py "ok" = Some (VBool true) ∧
       resposta !! py "data" = Some v ∧
       (∀ d, v ≠ VDict d) ∧
       run w tr (mostrar_resposta resposta)
       = (tr, Raises (AttributeError
            (py "'" ++ type_name v ++ py "' object has no attribute 'get'"))).
Proof.
  intros [[] [Hok H]].
  - destruct H as [[v Hv] _]. destruct v as [| | | | | |d];
      try (right; eexists; split; [exact Hok|]; split; [exact Hv|];
           split; [discriminate|];
           unfold mostrar_resposta, dict_item; rewrite Hok, Hv; reflexivity).
    left. split; [|right; by exists d].
    by rewrite (mostrar_resposta_dict_run w tr resposta (VBool true) d).
  - destruct H as [_ [m Hm]]. left. split; [|by left].
    by rewrite (mostrar_resposta_error_run w tr resposta (VStr m)).
Qed.

Lemma mostrar_resposta_needs_object_witness :
  ((run (world_of offline) []
      (mostrar_resposta (<[py "data" := VList []]> {[py "ok" := VBool true]}))).2
     = Returns tt ∧
   ((<[py "data" := VList []]> {[py "ok" := VBool true]} : gmap str value)
      !! py "ok" = Some (VBool false) ∨
    ∃ d, (<[py "data" := VList []]> {[py "ok" := VBool true]} : gmap str value)
           !! py "data" = Some (VDict d))) ∨
  ∃ v, (<[py "data" := VList []]> {[py "ok" := VBool true]} : gmap str value)
         !! py "ok" = Some (VBool true) ∧
       (<[py "data" := VList []]> {[py "ok" := VBool true]} : gmap str value)
         !! py "data" = Some v ∧
       (∀ d, v ≠ VDict d) ∧
       run (world_of offline) []
         (mostrar_resposta (<[py "data" := VList []]> {[py "ok" := VBool true]}))
       = ([], Raises (AttributeError
                        (py "'" ++ type_name v ++ py "' object has no attribute 'get'"))).
Proof.
  apply (mostrar_resposta_needs_object (world_of offline) []
           (<[py "data" := VList []]> {[py "ok" := VBool true]})).
  exists true. split; [|split].
  - rewrite lookup_insert_ne by key_neq. apply lookup_singleton_eq.
  - eexists. apply lookup_insert_eq.
  - rewrite lookup_insert_ne by key_neq. apply lookup_singleton_ne. key_neq.
Defined.

(** Run the calls at the head of a program. *)
Ltac run_steps :=
  repeat progress (rewrite ?run_bind, ?run_perform_st; cbn [fst snd]; cbv beta zeta);
  unfold mret, prog_ret; cbn [run fst snd].

Lemma only_draws_run {A} (w : world) (p : prog A) :
  only_draws p → ∀ tr, ∃ ls, (run w tr p).1 = tr ++ widgets ls.
Proof.
  induction 1 as [a|c k _ IH]; intros tr.
  - exists []. cbn. by rewrite app_nil_r.
  - rewrite run_st. destruct (IH (tr ++ [Called (st c) tt])) as [ls ->].
    exists (c :: ls). by rewrite <-app_assoc.
Qed.

Lemma only_draws_bind {A B} (p : prog A) (f : A → prog B) :
  only_draws p → (∀ a, only_draws (f a)) → only_draws (p ≫= f).
Proof.
  intros Hp Hf. induction Hp as [a|c k _ IH]; cbn; [apply Hf|].
  constructor. exact IH.
Qed.

Lemma only_draws_perform {A} (c : st_call) (k : unit → prog A) :
  only_draws (k tt) → only_draws (perform (st c) ≫= k).
Proof. intros H. cbn. by constructor. Qed.

Lemma mostrar_resposta_only_draws (resposta : gmap str value) :
  only_draws (mostrar_resposta resposta).
Proof.
  unfold mostrar_resposta.
  destruct (dict_item resposta (py "ok")) as [ok|e]; [|constructor].
  destruct (truthy ok).
  - destruct (dict_item resposta (py "data")) as [data|e]; [|constructor].
    destruct (py_or _ _) as [answer|e]; [|constructor].
    destruct (py_or _ _) as [fontes|e]; [|constructor].
    apply only_draws_perform. apply only_draws_bind.
    { destruct answer; repeat constructor. }
    intros _. apply only_draws_bind; [|intros; constructor].
    destruct (truthy fontes); repeat constructor.
  - destruct (dict_item resposta (py "error")) as [msg|e]; [|constructor].
    repeat constructor.
Qed.

Section EnviarRun.
Variable getenv : str → option str.
Variable json_loads : str → result value.
Variables (w : world) (tr : list event).
Variables (pergunta : str) (k : Z) (namespace docs_json : str).

Lemma enviar_run :
  ∃ warn documentos,
    run w tr (enviar getenv json_loads pergunta k namespace docs_json)
    = (let r := run w (tr ++ widgets (warn ++ [st_spinner (py "Consultando os documentos...")]))
                  (perguntar_backend getenv pergunta k (or_none namespace) documentos) in
       match r.2 with
       | Returns resposta => run w r.1 (mostrar_resposta resposta)
       | Raises e => (r.1, Raises e)
       end) ∧
    match (if nonempty (strip docs_json) then Some (json_loads docs_json) else None) with
    | Some (Raises e) =>
      warn = [st_warning (py "Documentos inválidos: " ++ str_of_exception e)] ∧
      documentos = None
    | Some (Returns v) => warn = [] ∧ documentos = Some v
    | None => warn = [] ∧ documentos = None
    end.
Proof.
  unfold enviar.
  destruct (nonempty (strip docs_json)); [destruct (json_loads docs_json) as [v|e]|].
  - exists [], (Some v). split; [|done]. run_steps.
    by destruct (run w _ (perguntar_backend _ _ _ _ _)).2.
  - eexists [_], None. split; [|done]. run_steps. rewrite <-app_assoc.
    by destruct (run w _ (perguntar_backend _ _ _ _ _)).2.
  - exists [], None. split; [|done]. run_steps.
    by destruct (run w _ (perguntar_backend _ _ _ _ _)).2.
Qed.
End EnviarRun.

Lemma posts_perguntar_backend getenv (w : world) tr q k ns docs :
  ∃ es, (run w tr (perguntar_backend getenv q k ns docs)).1 = tr ++ es ∧
        ∀ p, p ∈ posts es →
             p = (BACKEND_URL getenv ++ py "/chat", chat_payload q k ns docs, 300%Z).
Proof.
  destruct (forallb isspace q) eqn:E.
  - rewrite perguntar_backend_blank by done. exists []. cbn. rewrite app_nil_r.
    split; [done|]. by intros p ?%elem_of_nil.
  - rewrite perguntar_backend_sent by done. cbn. eexists. split; [done|].
    cbn. by intros p ->%list_elem_of_singleton.
Qed.

Section EnviarShown.
Variable getenv : str → option str.
Variable json_loads : str → result value.
Variables (w : world) (tr : list event).
Variables (pergunta : str) (k : Z) (namespace docs_json : str).

(** X8.  With a backend that cannot be reached (every POST to [/chat]
    raises a [RequestException] with message [m]), the button "Enviar"
    with a question that is not blank finishes; after the warnings about
    the documents, if any, it shows the spinner and then the error [Falha
    de conexão com o backend: m], and nothing else. *)
Theorem enviar_shows_connection_error (m : str) :
  forallb isspace pergunta = false →
  (∀ tr' json, w _ tr' (requests_post (BACKEND_URL getenv ++ py "/chat") json 300)
               = Raises (RequestException m)) →
  ∃ es warn,
    run w tr (enviar getenv json_loads pergunta k namespace docs_json)
      = (tr ++ es, Returns tt) ∧
    Forall (λ c, ∃ t, c = st_warning t) warn ∧
    shown es = warn ++ [st_spinner (py "Consultando os documentos...");
                        st_error (VStr (py "Falha de conexão com o backend: " ++ m))].
Proof.
  intros Hq Hw. destruct (enviar_run getenv json_loads w tr pergunta k namespace docs_json) as (warn & documentos & -> & Hd).
  cbv zeta. rewrite perguntar_backend_sent by done. cbv zeta. cbn [fst snd].
  rewrite Hw. cbn [chat_reply perguntar_backend_except str_of_exception].
  destruct (error_reply_lookup (py "Falha de conexão com o backend: " ++ m))
    as (Hok & Herr & _).
  rewrite (mostrar_resposta_error_run w _ _ _ Hok Herr).
  eexists _, warn. split; [by rewrite <-!app_assoc|]. split.
  - destruct (nonempty (strip docs_json)); [destruct (json_loads docs_json)|];
      destruct Hd as [-> _]; repeat constructor. by eexists.
  - rewrite !shown_app, shown_widgets. cbn. by rewrite <-app_assoc.
Qed.

(** X9.  When the documents field is not blank and [json.loads] rejects
    it, the button "Enviar" first warns [Documentos inválidos: <error>],
    then shows the spinner and goes on: no request it makes carries
    [documents], and a question that is not blank is still posted, once. *)
Theorem enviar_drops_invalid_documents (e : exception) :
  nonempty (strip docs_json) = true →
  json_loads docs_json = Raises e →
  ∃ es,
    (run w tr (enviar getenv json_loads pergunta k namespace docs_json)).1 = tr ++ es ∧
    take 2 (shown es)
      = [st_warning (py "Documentos inválidos: " ++ str_of_exception e);
         st_spinner (py "Consultando os documentos...")] ∧
    (∀ p, p ∈ posts es → p.1.2 !! py "documents" = None) ∧
    (forallb isspace pergunta = false → length (posts es) = 1).
Proof.
  intros Hn He. destruct (enviar_run getenv json_loads w tr pergunta k namespace docs_json) as (warn & documentos & -> & Hd).
  rewrite Hn, He in Hd. destruct Hd as [-> ->]. cbv zeta.
  set (tr2 := tr ++ widgets _).
  destruct (posts_perguntar_backend getenv w tr2 pergunta k (or_none namespace) None)
    as (es1 & H1 & Hp).
  assert (Hm : ∃ ls, (match (run w tr2 (perguntar_backend getenv pergunta k
                                          (or_none namespace) None)).2 with
                      | Returns resposta =>
                        run w (run w tr2 (perguntar_backend getenv pergunta k
                                            (or_none namespace) None)).1
                          (mostrar_resposta resposta)
                      | Raises e0 =>
                        ((run w tr2 (perguntar_backend getenv pergunta k
                                       (or_none namespace) None)).1, Raises e0)
                      end).1 = tr2 ++ es1 ++ widgets ls).
  { destruct (run w tr2 _).2 as [resposta|e0].
    - destruct (only_draws_run w _ (mostrar_resposta_only_draws resposta)
                  (run w tr2 (perguntar_backend getenv pergunta k
                                (or_none namespace) None)).1) as [ls ->].
      exists ls. by rewrite H1, <-app_assoc.
    - exists []. cbn. by rewrite H1, app_nil_r. }
  destruct Hm as [ls ->]. subst tr2.
  eexists. split; [by rewrite <-app_assoc|]. split; [|split].
  - rewrite shown_app, shown_widgets. reflexivity.
  - intros p. rewrite !posts_app, !posts_widgets, app_nil_l, app_nil_r.
    intros ->%Hp. cbn. 
    destruct (chat_payload pergunta k (or_none namespace) None !! py "documents")
      as [v|] eqn:E; [|done].
    by apply payload_documents in E as [? _].
  - intros Hq. rewrite !posts_app, !posts_widgets, app_nil_l, app_nil_r.
    rewrite perguntar_backend_sent in H1 by done. cbn in H1.
    apply app_inv_head in H1. by subst es1.
Qed.

(** X10.  When the backend answers with a status outside 400..599 and a
    body that is not JSON, so that [resp.json()] raises a [ValueError], the
    button "Enviar" shows, after the spinner, the heading [### Resposta:]
    and the body as text; an empty body is shown as the object
    [{"raw": ""}].  No sources are shown. *)
Theorem enviar_shows_raw_body (resp : Response) (m : str) :
  forallb isspace pergunta = false →
  (∀ tr' payload,
     w _ tr' (requests_post (BACKEND_URL getenv ++ py "/chat") payload 300)
     = Returns resp) →
  (status_code resp < 400 ∨ 600 ≤ status_code resp)%Z →
  json resp = Raises (ValueError m) →
  ∃ es warn,
    run w tr (enviar getenv json_loads pergunta k namespace docs_json)
      = (tr ++ es, Returns tt) ∧
    Forall (λ c, ∃ t, c = st_warning t) warn ∧
    shown es = warn ++ [st_spinner (py "Consultando os documentos...");
                        st_markdown (py "### Resposta:");
                        match text resp with
                        | [] => st_json (VDict {[py "raw" := VStr []]})
                        | _ => st_write (VStr (text resp))
                        end].
Proof.
  intros Hq Hw Hs Hj. destruct (enviar_run getenv json_loads w tr pergunta k namespace docs_json) as (warn & documentos & -> & Hd).
  cbv zeta. rewrite perguntar_backend_sent by done. cbv zeta. cbn [fst snd].
  rewrite Hw.
  rewrite (chat_reply_not_json resp _ (raise_for_status_passes resp Hs) Hj eq_refl).
  set (d := ({[py "raw" := VStr (text resp)]} : gmap str value)).
  rewrite (mostrar_resposta_dict_run w _ _ (VBool true) d); cycle 1.
  { rewrite lookup_insert_ne by key_neq. apply lookup_singleton_eq. }
  { done. }
  { apply lookup_insert_eq. }
  assert (Ha : first_key truthy d [py "answer"; py "resposta"; py "raw"]
               = match text resp with [] => None | _ => Some (VStr (text resp)) end).
  { cbn [first_key]. subst d.
    rewrite !lookup_singleton_ne by key_neq. rewrite lookup_singleton_eq.
    by destruct (text resp). }
  assert (Hf : first_key truthy d [py "sources"; py "fontes"] = None).
  { cbn [first_key]. subst d. by rewrite !lookup_singleton_ne by key_neq. }
  rewrite Ha, Hf.
  eexists _, warn. split; [by rewrite <-!app_assoc|]. split.
  - destruct (nonempty (strip docs_json)); [destruct (json_loads docs_json)|];
      destruct Hd as [-> _]; repeat constructor. by eexists.
  - rewrite !shown_app, !shown_widgets. cbn [shown omap drawn].
    rewrite <-app_assoc. subst d. by destruct (text resp).
Qed.

End EnviarShown.

Lemma enviar_shows_connection_error_witness :
  ∃ es warn,
    run (world_of offline) [] (enviar no_env rejects_all (py "oi") 4 [] [])
      = ([] ++ es, Returns tt) ∧
    Forall (λ c, ∃ t, c = st_warning t) warn ∧
    shown es = warn ++ [st_spinner (py "Consultando os documentos...");
                        st_error (VStr (py "Falha de conexão com o backend: "
                                          ++ py "Connection refused"))].
Proof.
  apply (enviar_shows_connection_error no_env rejects_all (world_of offline) []
           (py "oi") 4 [] [] (py "Connection refused")).
  - vm_compute. reflexivity.
  - intros tr' json. reflexivity.
Defined.

Lemma enviar_drops_invalid_documents_witness :
  ∃ es,
    (run (world_of offline) [] (enviar no_env rejects_all (py "oi") 4 [] (py "{"))).1
      = [] ++ es ∧
    take 2 (shown es)
      = [st_warning (py "Documentos inválidos: "
                       ++ str_of_exception (ValueError (py "Expecting value")));
         st_spinner (py "Consultando os documentos...")] ∧
    (∀ p, p ∈ posts es → p.1.2 !! py "documents" = None) ∧
    (forallb isspace (py "oi") = false → length (posts es) = 1).
Proof.
  apply (enviar_drops_invalid_documents no_env rejects_all (world_of offline) []
           (py "oi") 4 [] (py "{") (ValueError (py "Expecting value"))).
  - vm_compute. reflexivity.
  - reflexivity.
Defined.

Lemma enviar_shows_raw_body_witness :
  ∃ es warn,
    run (world_of (replying (ok_response (py "<html>") None))) []
      (enviar no_env rejects_all (py "oi") 4 [] [])
      = ([] ++ es, Returns tt) ∧
    Forall (λ c, ∃ t, c = st_warning t) warn ∧
    shown es = warn ++ [st_spinner (py "Consultando os documentos...");
                        st_markdown (py "### Resposta:");
                        match text (ok_response (py "<html>") None) with
                        | [] => st_json (VDict {[py "raw" := VStr []]})
                        | _ => st_write (VStr (text (ok_response (py "<html>") None)))
                        end].
Proof.
  apply (enviar_shows_raw_body no_env rejects_all
           (world_of (replying (ok_response (py "<html>") None))) []
           (py "oi") 4 [] [] (ok_response (py "<html>") None)
           (py "Expecting value: line 1 column 1 (char 0)")).
  - vm_compute. reflexivity.
  - intros tr' payload. reflexivity.
  - left. cbn. lia.
  - reflexivity.
Defined.

(** The run of the button that tests the bucket. *)
Lemma testar_acesso_s3_run (getenv : str → option str)
    (py_str : value → str) (w : world) (tr : list event) :
  ∃ (ans : result unit) (c : st_call),
    run w tr (testar_acesso_s3 getenv py_str)
      = (tr ++ [Called (head_bucket (BUCKET_NAME getenv)) ans; Called (st c) tt],
         Returns tt) ∧
    match ans with
    | Returns _ => c = st_success (py "Acesso ao bucket OK.")
    | Raises _ => ∃ m, c = st_error (VStr m) ∧ m ≠ []
    end.
Proof.
  exists (w _ tr (head_bucket (BUCKET_NAME getenv))).
  unfold testar_acesso_s3, check_s3_access.
  rewrite !run_bind, run_perform. cbn [fst snd]. unfold mret at 1, prog_ret. cbn [run fst snd].
  destruct (w _ tr (head_bucket _)) as [[]|e].
  - eexists. unfold mret, prog_ret. cbn [run fst snd].
    rewrite run_bind, run_perform_st. cbn [fst snd run].
    rewrite <-app_assoc. split; [reflexivity|done].
  - destruct e; eexists; unfold mret, prog_ret; cbn [run fst snd];
      rewrite run_bind, run_perform_st; cbn [fst snd run];
      rewrite <-app_assoc;
      (split; [reflexivity|]); eexists; (split; [reflexivity|]); discriminate.
Qed.

(** X11.  The button "Testar acesso ao S3" calls [head_bucket] once on
    the configured bucket, draws one message and finishes, whatever the
    call does: the success [Acesso ao bucket OK.] when it returns, an error
    with a text that is not empty when it raises. *)
Theorem testar_acesso_s3_shows_one_message (getenv : str → option str)
    (py_str : value → str) (w : world) (tr : list event) :
  ∃ (ans : result unit) (c : st_call),
    run w tr (testar_acesso_s3 getenv py_str)
      = (tr ++ [Called (head_bucket (BUCKET_NAME getenv)) ans; Called (st c) tt],
         Returns tt) ∧
    match ans with
    | Returns _ => c = st_success (py "Acesso ao bucket OK.")
    | Raises _ => ∃ m, c = st_error (VStr m) ∧ m ≠ []
    end.
Proof. apply testar_acesso_s3_run. Qed.

(** X12.  [check_health_server] raises [e] exactly when the GET of
    [/health] raised [e], which is not a [requests.RequestException]. *)
Theorem check_health_server_raises_iff (getenv : str → option str) (w : world)
    (tr : list event) (e : exception) :
  (run w tr (check_health_server getenv)).2 = Raises e
  ↔ w _ tr (requests_get (BACKEND_URL getenv ++ py "/health") 10) = Raises e ∧
    is_RequestException e = false.
Proof.
  cbn. destruct (w _ tr (requests_get _ _)) as [resp|e0].
  - split; [done|]. by intros [? _].
  - destruct (is_RequestException e0) eqn:E.
    + split; [done|]. intros [[= ->] ?]. congruence.
    + split; [by intros [= <-]|]. by intros [[= ->] _].
Qed.

Lemma hex_no_dot (u : UUID) : dot ∉ hex u.
Proof.
  intros H. pose proof (hex_digits_are_hex 32 (int u)) as Hall.
  rewrite forallb_forall in Hall. apply list_elem_of_In, Hall in H. discriminate H.
Qed.

Lemma last_split_no_sep sep s : sep ∉ last_item (split sep s).
Proof.
  unfold last_item. induction s as [|c s IH].
  - cbn. apply not_elem_of_nil.
  - rewrite last_split_cons. destruct (decide (sep ∈ s)) as [Hs|Hs].
    + by rewrite bool_decide_eq_true_2.
    + rewrite (bool_decide_eq_false_2 (sep ∈ s)) by done.
      case_bool_decide; cbn; [done|]. by apply not_elem_of_cons.
Qed.

Lemma split_last_decompose sep s :
  sep ∈ s → ∃ pre, s = pre ++ sep :: last_item (split sep s).
Proof.
  unfold last_item. induction s as [|c s IH]; [by intros ?%elem_of_nil|].
  intros H. rewrite last_split_cons. destruct (decide (sep ∈ s)) as [Hs|Hs].
  - rewrite bool_decide_eq_true_2 by done. destruct (IH Hs) as [pre E].
    exists (c :: pre). cbn. by rewrite <-E.
  - rewrite (bool_decide_eq_false_2 (sep ∈ s)) by done.
    apply elem_of_cons in H as [->|H]; [|done].
    rewrite bool_decide_eq_true_2 by done. by exists [].
Qed.

Lemma extension_app pre ext : dot ∉ ext → extension (pre ++ dot :: ext) = Some ext.
Proof.
  intros H. unfold extension. rewrite bool_decide_eq_true_2.
  - by apply last_split_app.
  - apply elem_of_app. right. apply elem_of_cons. by left.
Qed.

(** X13.  The key [s3_safe_key] makes has the extension of the name it
    was given: what follows the last dot of the key is what follows the
    last dot of the name, and the key has no dot when the name has
    none. *)
Theorem s3_safe_key_keeps_extension (w : world) (tr : list event) (name : str) :
  extension (run w tr (s3_safe_key name)).2 = extension name.
Proof.
  destruct (decide (dot ∈ name)) as [Hd|Hd].
  - destruct (split_last_decompose dot name Hd) as [pre E].
    pose proof (last_split_no_sep dot name) as Hext.
    rewrite E at 1 2. rewrite s3_safe_key_ext by done.
    by rewrite !extension_app.
  - rewrite s3_safe_key_no_dot by done. unfold extension.
    rewrite !bool_decide_eq_false_2; [done..|apply hex_no_dot].
Qed.

(** X14.  Two calls of [s3_safe_key] that give the same key drew the same
    UUID, whatever the names: keys collide only when UUIDs do. *)
Theorem s3_safe_key_equal_keys (w1 w2 : world) (tr1 tr2 : list event)
    (name1 name2 : str) :
  (run w1 tr1 (s3_safe_key name1)).2 = (run w2 tr2 (s3_safe_key name2)).2 →
  int (w1 _ tr1 uuid4) = int (w2 _ tr2 uuid4).
Proof.
  rewrite !s3_safe_key_run. cbn [snd]. intros H.
  apply hex_inj. apply (f_equal (take 32)) in H.
  rewrite !take_app_length' in H by (symmetry; apply length_hex_digits). exact H.
Qed.

Lemma s3_safe_key_equal_keys_witness :
  (run (world_of offline) [] (s3_safe_key (py "a.pdf"))).2
    = (run (world_of offline) [Called uuid4 uuid_of_zero] (s3_safe_key (py "b.pdf"))).2 ∧
  int (world_of offline _ [] uuid4)
    = int (world_of offline _ [Called uuid4 uuid_of_zero] uuid4).
Proof.
  split; [vm_compute; reflexivity|].
  apply (s3_safe_key_equal_keys (world_of offline) (world_of offline) []
           [Called uuid4 uuid_of_zero] (py "a.pdf") (py "b.pdf")).
  vm_compute. reflexivity.
Defined.

Lemma run_new_answered {A} (w : world) (p : prog A) :
  ∀ tr, ∃ es, (run w tr p).1 = tr ++ es ∧ Forall (answered_by w) es.
Proof.
  induction p as [a|R c k IH]; intros tr.
  - exists []. cbn. by rewrite app_nil_r.
  - cbn. destruct (IH (w _ tr c) (tr ++ [Called c (w _ tr c)])) as (es & -> & Hes).
    exists (Called c (w _ tr c) :: es). split; [by rewrite <-app_assoc|].
    constructor; [by exists tr|done].
Qed.

Lemma length_outcomes (os : list (str + str * str)) :
  length (sent_keys os) + length (failures os) = length os.
Proof.
  induction os as [|[key|nr] os IH]; cbn; [done|..];
    fold (sent_keys os); fold (failures os); lia.
Qed.

Lemma key_for_shape u n k :
  key_for u n k → ∃ rest, k = py "uploads/" ++ hex u ++ rest.
Proof.
  intros [H1 H2]. destruct (decide (dot ∈ n)) as [Hd|Hd].
  - destruct (split_last_decompose dot n Hd) as [pre E].
    eexists. apply (H2 pre _ E), last_split_no_sep.
  - exists []. rewrite app_nil_r. by apply H1.
Qed.

Lemma key_for_uuid u u' n n' k : key_for u n k → key_for u' n' k → int u = int u'.
Proof.
  intros [r ->]%key_for_shape [r' H]%key_for_shape.
  apply app_inv_head in H. apply hex_inj.
  apply (f_equal (take 32)) in H.
  by rewrite !take_app_length' in H by (symmetry; apply length_hex_digits).
Qed.

Lemma elem_of_sent_keys k (uos : list (UUID * (str + str * str))) :
  k ∈ sent_keys uos.*2 → ∃ u, (u, inl k) ∈ uos.
Proof.
  induction uos as [|[u [k'|nr]] uos IH]; cbn.
  - by intros ?%elem_of_nil.
  - fold (sent_keys uos.*2). intros [->|H]%elem_of_cons.
    + exists u. by left.
    + destruct (IH H) as [u' ?]. exists u'. by right.
  - fold (sent_keys uos.*2). intros H. destruct (IH H) as [u' ?]. exists u'. by right.
Qed.

Lemma elem_of_failures nr (os : list (str + str * str)) :
  nr ∈ failures os → inr nr ∈ os.
Proof.
  induction os as [|[k|nr'] os IH]; cbn.
  - by intros ?%elem_of_nil.
  - fold (failures os). intros H. right. by apply IH.
  - fold (failures os). intros [->|H]%elem_of_cons; [by left|]. right. by apply IH.
Qed.

Lemma sent_keys_nodup getenv py_str es files
    (uos : list (UUID * (str + str * str))) :
  Forall2 (recorded getenv py_str es) files uos →
  NoDup (int <$> uos.*1) → NoDup (sent_keys uos.*2).
Proof.
  intros Hall. assert (Hk : ∀ u k, (u, inl k) ∈ uos → ∃ f, key_for u (name f) k).
  { intros u k Hin. apply list_elem_of_lookup in Hin as [i Hi].
    destruct (Forall2_lookup_r _ _ _ _ _ Hall Hi) as (f & _ & key & Hkey & -> & _).
    by exists f. }
  clear Hall. induction uos as [|[u o] uos IH]; cbn; [constructor|].
  intros [Hu Hnd]%NoDup_cons. 
  assert (IH' : NoDup (sent_keys uos.*2)).
  { apply IH; [|done]. intros u' k' ?. apply Hk. by right. }
  destruct o as [k|nr]; [|exact IH'].
  fold (sent_keys uos.*2). constructor; [|exact IH'].
  intros [u' Hin]%elem_of_sent_keys. apply Hu.
  destruct (Hk u k ltac:(by left)) as [f Hf].
  destruct (Hk u' k ltac:(by right)) as [f' Hf'].
  rewrite (key_for_uuid _ _ _ _ _ Hf Hf').
  apply list_elem_of_fmap. exists u'. split; [done|].
  apply list_elem_of_fmap. by exists (u', inl k).
Qed.

Section UploadOutcome.
Variable getenv : str → option str.
Variable py_str : value → str.
Variable w : world.

(** X15.  The button "Enviar para S3" draws one UUID per selected file,
    and every file ends in exactly one of the two lists: the keys sent and
    the failures together are as many as the files, for the empty
    selection too. *)
Theorem every_file_is_counted (tr : list event) (files : list UploadedFile) :
  ∃ es,
    (run w tr (enviar_para_s3 getenv py_str files)).1 = tr ++ es ∧
    length (uuids es) = length files ∧
    length (run w tr (enviar_para_s3 getenv py_str files)).2.1
      + length (run w tr (enviar_para_s3 getenv py_str files)).2.2
    = length files.
Proof.
  destruct (enviar_para_s3_spec getenv py_str w tr files)
    as (uos & es & -> & Hu & _ & _ & Hall).
  exists es. cbn [fst snd]. apply Forall2_length in Hall.
  split; [done|]. split.
  - by rewrite Hu, length_fmap.
  - by rewrite length_outcomes, length_fmap.
Qed.

(** X16.  When the UUIDs drawn during an upload are pairwise distinct, so
    are the keys it reports as sent, whatever the names of the files. *)
Theorem distinct_uuids_give_distinct_keys (tr : list event)
    (files : list UploadedFile) :
  ∃ es,
    (run w tr (enviar_para_s3 getenv py_str files)).1 = tr ++ es ∧
    (NoDup (int <$> uuids es) →
     NoDup (run w tr (enviar_para_s3 getenv py_str files)).2.1).
Proof.
  destruct (enviar_para_s3_spec getenv py_str w tr files)
    as (uos & es & -> & Hu & _ & _ & Hall).
  exists es. cbn [fst snd]. split; [done|]. rewrite Hu.
  eapply sent_keys_nodup. exact Hall.
Qed.

Lemma failure_cause (tr : list event) (files : list UploadedFile)
    (n reason : str) :
  (n, reason) ∈ (run w tr (enviar_para_s3 getenv py_str files)).2.2 →
  ∃ f e tr',
    f ∈ files ∧ n = name f ∧ reason = (upload_except py_str f e).1 ∧
    (w _ tr' (seek f 0) = Raises e ∨
     ∃ key, w _ tr' (upload_fileobj f (BUCKET_NAME getenv) key
                       {[py "ContentType" := VStr (py "application/pdf")]})
            = Raises e).
Proof.
  destruct (run_new_answered w (enviar_para_s3 getenv py_str files) tr)
    as (es' & Hes' & Hans).
  destruct (enviar_para_s3_spec getenv py_str w tr files)
    as (uos & es & Hrun & Hu & _ & _ & Hall).
  rewrite Hrun in Hes' |- *. cbn [fst snd] in *. apply app_inv_head in Hes'. subst es'.
  intros Hin%elem_of_failures.
  apply list_elem_of_fmap in Hin as ([u o] & Ho & Hin). cbn in Ho. subst o.
  apply list_elem_of_lookup in Hin as [i Hi].
  destruct (Forall2_lookup_r _ _ _ _ _ Hall Hi) as (f & Hf & key & _ & He).
  cbn in He. destruct He as [-> (e & -> & Hev)].
  rewrite Forall_forall in Hans.
  destruct Hev as [Hev|[_ Hev]]; apply Hans in Hev as [tr' Hw];
    exists f, e, tr'; (split; [by eapply list_elem_of_lookup_2|]);
    (split; [done|]); (split; [done|]); [left|right; exists key]; done.
Qed.

(** X17.  Every entry of the failures names a selected file for which
    [f.seek(0)] or [upload_fileobj] raised, and its reason is the text the
    [except] clauses give for that exception. *)
Theorem failures_have_a_cause (tr : list event) (files : list UploadedFile)
    (n reason : str) :
  (n, reason) ∈ (run w tr (enviar_para_s3 getenv py_str files)).2.2 →
  ∃ f e tr',
    f ∈ files ∧ n = name f ∧ reason = (upload_except py_str f e).1 ∧
    (w _ tr' (seek f 0) = Raises e ∨
     ∃ key, w _ tr' (upload_fileobj f (BUCKET_NAME getenv) key
                       {[py "ContentType" := VStr (py "application/pdf")]})
            = Raises e).
Proof. apply failure_cause. Qed.

(** X18.  When neither [seek] nor [upload_fileobj] ever raises, no file
    fails and there is one key sent per selected file. *)
Theorem all_uploads_succeed (tr : list event) (files : list UploadedFile) :
  (∀ tr' f pos, w _ tr' (seek f pos) = Returns tt) →
  (∀ tr' f b key args, w _ tr' (upload_fileobj f b key args) = Returns tt) →
  (run w tr (enviar_para_s3 getenv py_str files)).2.2 = [] ∧
  length (run w tr (enviar_para_s3 getenv py_str files)).2.1 = length files.
Proof.
  intros Hseek Hup.
  assert (Hnil : (run w tr (enviar_para_s3 getenv py_str files)).2.2 = []).
  { destruct (run w tr (enviar_para_s3 getenv py_str files)).2.2 as [|[n r] l] eqn:E;
      [done|].
    destruct (failure_cause tr files n r) as (f & e & tr' & _ & _ & _ & H).
    { rewrite E. by left. }
    destruct H as [H|[key H]]; [rewrite Hseek in H|rewrite Hup in H]; discriminate H. }
  split; [done|].
  destruct (enviar_para_s3_spec getenv py_str w tr files)
    as (uos & es & Hrun & _ & _ & _ & Hall).
  rewrite Hrun in Hnil |- *. cbn [fst snd] in *.
  apply Forall2_length in Hall. pose proof (length_outcomes uos.*2) as Hl.
  rewrite Hnil, length_fmap in Hl. cbn in Hl. lia.
Qed.

(** X19.  When [seek] returns and every [upload_fileobj] raises
    [NoCredentialsError], nothing is reported as sent and every selected
    file is listed, in the order of the selection, with the reason
    [NoCredentialsError (credenciais ausentes)]. *)
Theorem no_credentials_nothing_sent (tr : list event) (files : list UploadedFile) :
  (∀ tr' f pos, w _ tr' (seek f pos) = Returns tt) →
  (∀ tr' f b key args, ∃ m,
      w _ tr' (upload_fileobj f b key args) = Raises (NoCredentialsError m)) →
  (run w tr (enviar_para_s3 getenv py_str files)).2
  = ([], (λ f, (name f, py "NoCredentialsError (credenciais ausentes)")) <$> files).
Proof.
  intros Hseek Hup.
  destruct (run_new_answered w (enviar_para_s3 getenv py_str files) tr)
    as (es' & Hes' & Hans).
  destruct (enviar_para_s3_spec getenv py_str w tr files)
    as (uos & es & Hrun & _ & _ & _ & Hall).
  rewrite Hrun in Hes' |- *. cbn [fst snd] in *. apply app_inv_head in Hes'. subst es'.
  rewrite Forall_forall in Hans.
  assert (Hos : uos.*2
    = (λ f, inr (name f, py "NoCredentialsError (credenciais ausentes)")) <$> files).
  { clear Hrun. induction Hall as [|f [u o] files uos (key & _ & He) _ IH]; [done|].
    cbn [fmap list_fmap snd]. rewrite <- IH. f_equal. cbn [snd] in He.
    destruct o as [sent|[n r]].
    - destruct He as (_ & _ & He).
      apply Hans in He as [tr' He]. destruct (Hup tr' f (BUCKET_NAME getenv) key
        {[py "ContentType" := VStr (py "application/pdf")]}) as [m Hm].
      rewrite Hm in He. discriminate He.
    - destruct He as [-> (e & -> & [He|[_ He]])]; apply Hans in He as [tr' He].
      + rewrite Hseek in He. discriminate He.
      + destruct (Hup tr' f (BUCKET_NAME getenv) key
          {[py "ContentType" := VStr (py "application/pdf")]}) as [m Hm].
        rewrite Hm in He. injection He as ->. done. }
  rewrite Hos. clear. f_equal.
  - induction files as [|f files IH]; [done|]. exact IH.
  - induction files as [|f files IH]; [done|].
    cbn [fmap list_fmap]. unfold failures in *. cbn [omap list_omap].
    by rewrite <- IH.
Qed.

End UploadOutcome.

Lemma failures_have_a_cause_witness :
  ∃ f e tr',
    f ∈ two_files ∧ py "x.pdf" = name f ∧
    py "AccessDenied - Access Denied" = (upload_except str_plain f e).1 ∧
    (world_of picky _ tr' (seek f 0) = Raises e ∨
     ∃ key, world_of picky _ tr'
              (upload_fileobj f (BUCKET_NAME no_env) key
                 {[py "ContentType" := VStr (py "application/pdf")]})
            = Raises e).
Proof.
  apply (failures_have_a_cause no_env str_plain (world_of picky) [] two_files
           (py "x.pdf") (py "AccessDenied - Access Denied")).
  rewrite upload_two_files. cbn [snd]. apply list_elem_of_singleton. reflexivity.
Defined.

Lemma all_uploads_succeed_witness :
  (run (world_of offline) [] (enviar_para_s3 no_env str_plain two_files)).2.2 = [] ∧
  length (run (world_of offline) [] (enviar_para_s3 no_env str_plain two_files)).2.1
    = length two_files.
Proof.
  apply (all_uploads_succeed no_env str_plain (world_of offline) [] two_files).
  - intros tr' f pos. reflexivity.
  - intros tr' f b key args. reflexivity.
Defined.

Lemma no_credentials_nothing_sent_witness :
  (run (world_of without_credentials) []
     (enviar_para_s3 no_env str_plain two_files)).2
  = ([], (λ f, (name f, py "NoCredentialsError (credenciais ausentes)")) <$> two_files).
Proof.
  apply (no_credentials_nothing_sent no_env str_plain (world_of without_credentials)
           [] two_files).
  - intros tr' f pos. reflexivity.
  - intros tr' f b key args. eexists. reflexivity.
Defined.

Lemma only_calls_run {A} (P : ∀ R, call R → Prop) (w : world) (p : prog A) :
  only_calls P p → ∀ tr, ∃ es, (run w tr p).1 = tr ++ es ∧ Forall (allowed P) es.
Proof.
  induction 1 as [a|R c k Hc _ IH]; intros tr.
  - exists []. cbn. by rewrite app_nil_r.
  - cbn. destruct (IH (w _ tr c) (tr ++ [Called c (w _ tr c)])) as (es & -> & Hes).
    exists (Called c (w _ tr c) :: es). split; [by rewrite <-app_assoc|].
    by constructor.
Qed.

Lemma only_calls_bind {A B} (P : ∀ R, call R → Prop) (p : prog A) (f : A → prog B) :
  only_calls P p → (∀ a, only_calls P (f a)) → only_calls P (p ≫= f).
Proof.
  intros Hp Hf. induction Hp as [a|R c k Hc _ IH]; cbn; [apply Hf|].
  constructor; [done|]. exact IH.
Qed.

Lemma only_calls_perform {R} (P : ∀ R, call R → Prop) (c : call R) : P R c → only_calls P (perform c).
Proof. intros H. constructor; [done|]. intros r. constructor. Qed.

Lemma only_calls_mono {A} (P Q : ∀ R, call R → Prop) (p : prog A) :
  (∀ R c, P R c → Q R c) → only_calls P p → only_calls Q p.
Proof. intros H. induction 1; constructor; auto. Qed.

Lemma only_draws_only_calls {A} (P : ∀ R, call R → Prop) (p : prog A) :
  (∀ c, P unit (st c)) → only_draws p → only_calls P p.
Proof.
  intros H. induction 1 as [a|c k _ IH]; constructor; [apply H|].
  by intros [].
Qed.

Lemma upload_call_mono getenv files files' R (c : call R) :
  files ⊆ files' → upload_call getenv files R c → upload_call getenv files' R c.
Proof.
  intros Hsub. destruct c; cbn; try done.
  - intros [? ?]. split; [by apply Hsub|done].
  - intros (? & ? & ? & ?). split; [by apply Hsub|done].
Qed.

Section Calls.
Variable getenv : str → option str.
Variable py_str : value → str.
Variable json_loads : str → result value.

Lemma write_lines_calls (P : ∀ R, call R → Prop) (lines : list str) :
  (∀ c, P unit (st c)) → only_calls P (write_lines lines).
Proof.
  intros H. induction lines as [|l lines IH]; [constructor|].
  cbn [write_lines]. apply only_calls_bind; [by apply only_calls_perform|].
  intros _. exact IH.
Qed.

Lemma upload_one_calls f acc :
  only_calls (upload_call getenv [f]) (upload_one getenv py_str f acc).
Proof.
  destruct acc as [enviados falhas]. unfold upload_one, s3_safe_key.
  assert (Hf : f ∈ [f]) by by left.
  repeat first
    [ apply only_calls_ret
    | apply only_calls_perform; cbn; first [done | by repeat split; eauto]
    | apply only_calls_bind; [|intros []]
    | apply only_calls_bind; [|intros ?] ].
Qed.

Lemma upload_loop_calls files acc :
  only_calls (upload_call getenv files) (upload_loop getenv py_str files acc).
Proof.
  revert acc. induction files as [|f files IH]; intros acc; [constructor|].
  cbn [upload_loop]. apply only_calls_bind.
  - eapply only_calls_mono; [|apply upload_one_calls].
    intros R c. apply upload_call_mono. intros x ->%list_elem_of_singleton. by left.
  - intros acc'. eapply only_calls_mono; [|apply IH].
    intros R c. apply upload_call_mono. intros x Hx. by right.
Qed.

Lemma enviar_para_s3_calls files :
  only_calls (upload_call getenv files) (enviar_para_s3 getenv py_str files).
Proof.
  unfold enviar_para_s3. destruct files as [|f files].
  { apply only_calls_bind; [by apply only_calls_perform|]. intros _. constructor. }
  apply only_calls_bind; [apply upload_loop_calls|]. intros [enviados falhas].
  apply only_calls_bind.
  { case_bool_decide; [constructor|].
    apply only_calls_bind; [by apply only_calls_perform|]. intros _.
    by apply write_lines_calls. }
  intros _. apply only_calls_bind; [|intros _; constructor].
  case_bool_decide; [constructor|].
  apply only_calls_bind; [by apply only_calls_perform|]. intros _.
  by apply write_lines_calls.
Qed.

Lemma perguntar_backend_calls q k ns docs :
  only_calls (question_call getenv) (perguntar_backend getenv q k ns docs).
Proof.
  unfold perguntar_backend. destruct (_ || _); [constructor|].
  apply only_calls_bind; [by apply only_calls_perform|]. intros r. constructor.
Qed.

Lemma enviar_calls pergunta k namespace docs_json :
  only_calls (question_call getenv)
    (enviar getenv json_loads pergunta k namespace docs_json).
Proof.
  unfold enviar. apply only_calls_bind.
  { destruct (nonempty _); [|constructor].
    destruct (json_loads docs_json); [constructor|].
    apply only_calls_bind; [by apply only_calls_perform|]. intros _. constructor. }
  intros documentos. apply only_calls_bind; [by apply only_calls_perform|]. intros _.
  apply only_calls_bind; [apply perguntar_backend_calls|].
  intros [resposta|e]; [|constructor].
  apply only_draws_only_calls; [done|apply mostrar_resposta_only_draws].
Qed.

(** X20.  The button "Enviar para S3" only draws widgets and UUIDs, and
    calls [seek(0)] and [upload_fileobj] on files of the selection; every
    upload goes to the configured bucket, under a key that starts with
    [uploads/], as [application/pdf].  It makes no HTTP request and no
    [head_bucket] call. *)
Theorem upload_touches_only_selection (w : world) (tr : list event)
    (files : list UploadedFile) :
  ∃ es,
    (run w tr (enviar_para_s3 getenv py_str files)).1 = tr ++ es ∧
    Forall (allowed (upload_call getenv files)) es.
Proof. apply only_calls_run, enviar_para_s3_calls. Qed.

(** The calls of the button "Enviar". *)
Lemma enviar_trace (w : world) (tr : list event)
    (pergunta : str) (k : Z) (namespace docs_json : str) :
  ∃ es,
    (run w tr (enviar getenv json_loads pergunta k namespace docs_json)).1 = tr ++ es ∧
    Forall (allowed (question_call getenv)) es ∧
    length (posts es) ≤ 1.
Proof.
  destruct (only_calls_run _ w _ (enviar_calls pergunta k namespace docs_json) tr)
    as (es & Hes & Hall).
  exists es. split; [done|]. split; [done|].
  destruct (enviar_run getenv json_loads w tr pergunta k namespace docs_json)
    as (warn & documentos & Hrun & _).
  rewrite Hrun in Hes. cbv zeta in Hes.
  set (tr2 := tr ++ widgets _) in Hes.
  destruct (forallb isspace pergunta) eqn:Hq.
  - rewrite perguntar_backend_blank in Hes by done. cbn [fst snd] in Hes.
    destruct (only_draws_run w _ (mostrar_resposta_only_draws
       (<[py "error" := VStr (py "Pergunta vazia.")]> {[py "ok" := VBool false]})) tr2)
      as [ls Hls].
    rewrite Hls in Hes. subst tr2. rewrite <-app_assoc in Hes.
    apply app_inv_head in Hes. subst es.
    rewrite posts_app, !posts_widgets. cbn. lia.
  - rewrite perguntar_backend_sent in Hes by done. cbn [fst snd] in Hes.
    set (tr3 := tr2 ++ _) in Hes.
    assert (∃ ls, es = widgets (warn ++ [st_spinner (py "Consultando os documentos...")])
              ++ [Called (requests_post (BACKEND_URL getenv ++ py "/chat")
                    (chat_payload pergunta k (or_none namespace) documentos) 300)
                    (w _ tr2 (requests_post (BACKEND_URL getenv ++ py "/chat")
                       (chat_payload pergunta k (or_none namespace) documentos) 300))]
              ++ widgets ls) as [ls ->].
    { destruct (chat_reply _) as [resposta|e].
      - destruct (only_draws_run w _ (mostrar_resposta_only_draws resposta) tr3)
          as [ls Hls].
        rewrite Hls in Hes. subst tr3 tr2. rewrite <-!app_assoc in Hes.
        apply app_inv_head in Hes. by exists ls.
      - cbn in Hes. subst tr3 tr2. rewrite <-!app_assoc in Hes.
        apply app_inv_head in Hes. exists []. by rewrite <-Hes. }
    rewrite !posts_app, !posts_widgets. cbn. lia.
Qed.

(** X21.  The button "Enviar" only draws widgets and posts to the route
    [/chat] with a timeout of 300 seconds, at most once; it never touches
    the bucket. *)
Theorem enviar_calls_only_chat (w : world) (tr : list event)
    (pergunta : str) (k : Z) (namespace docs_json : str) :
  ∃ es,
    (run w tr (enviar getenv json_loads pergunta k namespace docs_json)).1 = tr ++ es ∧
    Forall (allowed (question_call getenv)) es ∧
    length (posts es) ≤ 1.
Proof. apply enviar_trace. Qed.
End Calls.

(** ** Retries *)

(** The run of the button that checks the server: the request, then the
    placeholder, the message, five seconds of sleep, and the placeholder
    emptied; or the request alone, when what it raised escapes
    [check_health_server]. *)
Lemma verificar_servidor_run (getenv : str → option str) (w : world)
    (tr : list event) :
  let c := requests_get (BACKEND_URL getenv ++ py "/health") 10 in
  run w tr (verificar_servidor getenv)
  = match (run w tr (check_health_server getenv)).2 with
    | Returns ok =>
      (tr ++ [Called c (w _ tr c);
              Called (st st_empty) tt;
              Called (st (if ok then st_success (py "Servidor OK ✅")
                          else st_error (VStr (py "Servidor Indisponível ❌")))) tt;
              Called (sleep 5) tt;
              Called (st st_empty) tt],
       Returns tt)
    | Raises e => (tr ++ [Called c (w _ tr c)], Raises e)
    end.
Proof.
  cbv zeta. unfold verificar_servidor. rewrite run_bind.
  assert (H1 : (run w tr (check_health_server getenv)).1
               = tr ++ [Called (requests_get (BACKEND_URL getenv ++ py "/health") 10)
                          (w _ tr (requests_get (BACKEND_URL getenv ++ py "/health") 10))])
    by reflexivity.
  rewrite H1. destruct (run w tr (check_health_server getenv)).2 as [ok|e];
    [|reflexivity].
  rewrite run_bind, run_perform_st. cbn [fst snd].
  rewrite run_bind.
  assert (Hmsg : ∀ tr0,
    run w tr0 (if ok then perform (st (st_success (py "Servidor OK ✅")))
               else perform (st (st_error (VStr (py "Servidor Indisponível ❌")))))
    = (tr0 ++ [Called (st (if ok then st_success (py "Servidor OK ✅")
                           else st_error (VStr (py "Servidor Indisponível ❌")))) tt],
       tt)).
  { intros tr0. destruct ok; apply run_perform_st. }
  rewrite Hmsg. cbn [fst snd].
  rewrite run_bind, run_perform. cbn [fst snd].
  destruct (w unit _ (sleep 5)).
  rewrite run_bind, run_perform_st. cbn [fst snd]. rewrite run_ret.
  by rewrite <-!app_assoc.
Qed.

(** X22.  The button that checks the server makes the one GET of
    [/health].  When the answer has status 200 it draws [Servidor OK ✅]
    in a placeholder; for any other status, and when the request raised a
    [requests.RequestException], it draws the error [Servidor Indisponível
    ❌].  It then sleeps five seconds, empties the placeholder and
    finishes.  Any other exception of the request escapes before anything
    is drawn. *)
Theorem verificar_servidor_shows_status (getenv : str → option str)
    (w : world) (tr : list event) :
  let c := requests_get (BACKEND_URL getenv ++ py "/health") 10 in
  let up (resp : Response) := (status_code resp =? 200)%Z in
  let shows (ok : bool) :=
    (tr ++ [Called c (w _ tr c);
            Called (st st_empty) tt;
            Called (st (if ok then st_success (py "Servidor OK ✅")
                        else st_error (VStr (py "Servidor Indisponível ❌")))) tt;
            Called (sleep 5) tt;
            Called (st st_empty) tt],
     Returns tt) in
  run w tr (verificar_servidor getenv)
  = match w _ tr c with
    | Returns resp => shows (up resp)
    | Raises e =>
      if is_RequestException e then shows false
      else (tr ++ [Called c (w _ tr c)], Raises e)
    end.
Proof.
  cbv zeta. rewrite verificar_servidor_run. cbv zeta.
  unfold check_health_server. rewrite run_bind, run_perform. cbn [fst snd].
  rewrite run_ret. cbn [snd].
  destruct (w _ tr (requests_get _ _)) as [resp|e]; [done|].
  by destruct (is_RequestException e).
Qed.

(** C8, as amended.  The script sets the retries of the S3 client itself:
    at most 3 attempts, in the mode [standard].  Beyond that it has no
    retry of its own, in any of its functions and buttons, whatever the
    calls are answered:
    - [check_health_server] makes one GET, given the URL and a timeout of
      10 seconds and nothing else, and [check_s3_access] one [head_bucket];
    - [perguntar_backend] makes no call or one POST, given the URL, the
      payload and a timeout of 300 seconds and nothing else;
    - the button that checks the server makes that one GET, and then only
      draws and sleeps; the button that tests the bucket makes that one
      [head_bucket], and then only draws;
    - the upload seeks every selected file once, in order, calls
      [upload_fileobj] at most once per file, and makes no other call but
      the UUIDs and the widgets;
    - the button "Enviar" posts at most once, and otherwise only draws;
    - the button that updates the knowledge base does nothing. *)
Theorem s3_retries_are_set (getenv : str → option str) :
  (∃ r, retries (config (s3 getenv)) = Some r ∧
        r !! py "max_attempts" = Some (VInt 3) ∧
        r !! py "mode" = Some (VStr (py "standard"))) ∧
  (∀ w tr, ∃ ans,
     (run w tr (check_health_server getenv)).1
     = tr ++ [Called (requests_get (BACKEND_URL getenv ++ py "/health") 10) ans]) ∧
  (∀ py_str w tr, ∃ ans,
     (run w tr (check_s3_access getenv py_str)).1
     = tr ++ [Called (head_bucket (BUCKET_NAME getenv)) ans]) ∧
  (∀ w tr pergunta k namespace documentos, ∃ es,
     (run w tr (perguntar_backend getenv pergunta k namespace documentos)).1
       = tr ++ es ∧
     (es = [] ∨
      ∃ ans, es = [Called (requests_post (BACKEND_URL getenv ++ py "/chat")
                             (chat_payload pergunta k namespace documentos) 300)
                     ans])) ∧
  (∀ w tr, ∃ ans ls,
     (run w tr (verificar_servidor getenv)).1
       = tr ++ Called (requests_get (BACKEND_URL getenv ++ py "/health") 10) ans :: ls ∧
     (ls = [] ∨
      ∃ c, ls = [Called (st st_empty) tt; Called (st c) tt;
                 Called (sleep 5) tt; Called (st st_empty) tt])) ∧
  (∀ py_str w tr, ∃ ans c,
     (run w tr (testar_acesso_s3 getenv py_str)).1
     = tr ++ [Called (head_bucket (BUCKET_NAME getenv)) ans; Called (st c) tt]) ∧
  (∀ py_str w tr files, ∃ es,
     (run w tr (enviar_para_s3 getenv py_str files)).1 = tr ++ es ∧
     sought es = files ∧ uploaded es `sublist_of` files ∧
     Forall (allowed (upload_call getenv files)) es) ∧
  (∀ json_loads w tr pergunta k namespace docs_json, ∃ es,
     (run w tr (enviar getenv json_loads pergunta k namespace docs_json)).1
       = tr ++ es ∧
     Forall (allowed (question_call getenv)) es ∧ length (posts es) ≤ 1) ∧
  (∀ w tr, run w tr atualizar_base = (tr, tt)).
Proof.
  split; [|split; [|split; [|split; [|split; [|split; [|split; [|split]]]]]]].
  - eexists. split; [reflexivity|]. split.
    + rewrite lookup_insert_ne by key_neq. apply lookup_singleton_eq.
    + apply lookup_insert_eq.
  - intros. by eexists.
  - intros. by eexists.
  - intros. destruct (forallb isspace pergunta) eqn:Hq.
    + rewrite perguntar_backend_blank by done. exists [].
      split; [by rewrite app_nil_r | by left].
    + rewrite perguntar_backend_sent by done. cbn. eexists. split; [reflexivity|].
      right. by eexists.
  - intros. rewrite verificar_servidor_run. cbv zeta.
    destruct (run w tr (check_health_server getenv)).2 as [ok|e].
    + eexists _, _. split; [reflexivity|]. right. by eexists.
    + exists (w _ tr (requests_get (BACKEND_URL getenv ++ py "/health") 10)), [].
      split; [reflexivity|by left].
  - intros. destruct (testar_acesso_s3_run getenv py_str w tr) as (ans & c & -> & _).
    by exists ans, c.
  - intros.
    destruct (enviar_para_s3_spec getenv py_str w tr files)
      as (uos & es & Hrun & _ & Hs & Hup & _).
    destruct (only_calls_run _ w _ (enviar_para_s3_calls getenv py_str files) tr)
      as (es' & Hes' & Hall).
    rewrite Hrun in Hes' |- *. cbn [fst] in *. apply app_inv_head in Hes'. subst es'.
    by exists es.
  - intros. apply enviar_trace.
  - intros. reflexivity.
Qed.

(** C8 as it is written fails: the configuration of the S3 client carries
    a retry count and a retry mode. *)
Lemma s3_retries_counterexample : ¬ library_default_retries (config (s3 no_env)).
Proof.
  intros H. destruct (H _ eq_refl) as [H1 _]. vm_compute in H1. discriminate H1.
Qed.
